(** * TelBotRLTVideo: the intent-to-query translation of [app/services/nlp_service.py]

    A shallow embedding of [QueryIntent] and [QueryBuilder] and of the two
    table declarations of [app/models.py], followed by the properties of
    the compiled (template, parameters) pair. *)

From Stdlib Require Import String Ascii List ZArith Bool Lia.
Import ListNotations.

Local Open Scope list_scope.
Local Open Scope string_scope.

(** ** Python values and dictionaries *)

(** The values a JSON document decoded by Python can put behind an [Any]
    annotation.  The builder binds them as parameters and never inspects
    them. *)
Inductive pyval : Type :=
| PyNone
| PyBool (b : bool)
| PyInt (z : Z)
| PyStr (s : string).


(** A [dict] with [str] keys keeps its items in insertion order; the
    association list holds them in that order, and a dictionary built by
    Python never carries one key twice ([PyDict.wf]). *)
Module PyDict.

Section Dict.
Context {V : Type}.

Definition t : Type := list (string * V).

Definition keys (d : t) : list string := map fst d.

Definition wf (d : t) : Prop := NoDup (keys d).

(** [d.get(k)] / [k in d] *)
Fixpoint get (k : string) (d : t) : option V :=
  match d with
  | [] => None
  | (k', v) :: d' => if String.eqb k k' then Some v else get k d'
  end.

Definition mem (k : string) (d : t) : bool :=
  match get k d with Some _ => true | None => false end.

(** [d[k] = v]: an existing key keeps its position, a new key goes last. *)
Fixpoint set (k : string) (v : V) (d : t) : t :=
  match d with
  | [] => [(k, v)]
  | (k', v') :: d' =>
      if String.eqb k k' then (k', v) :: d' else (k', v') :: set k v d'
  end.

(** [d.get(k, default)] *)
Definition get_default (k : string) (default : V) (d : t) : V :=
  match get k d with Some v => v | None => default end.

(** [bool(d)] *)
Definition truthy (d : t) : bool :=
  match d with [] => false | _ :: _ => true end.

End Dict.

Arguments t : clear implicits.

(** [d1 == d2]: same number of items, and every item of [d1] is in [d2]. *)
Definition eqb {V : Type} (veqb : V -> V -> bool) (d1 d2 : t V) : bool :=
  Nat.eqb (List.length d1) (List.length d2)
  && forallb (fun kv => match get (fst kv) d2 with
                        | Some v => veqb (snd kv) v
                        | None => false
                        end) d1.

End PyDict.

(** ** Exceptions and results *)

Inductive exn : Type :=
| ValueError (msg : string)
| ValidationError (fields : list string).

Inductive result (A : Type) : Type :=
| Ok (a : A)
| Err (e : exn).

Arguments Ok {A} a.
Arguments Err {A} e.

(** ** The tables of [app/models.py] *)

Record table : Type := { tablename : string; columns : list string }.

Definition Video : table :=
  {| tablename := "videos";
     columns := ["id"; "creator_id"; "video_created_at"; "views_count";
                 "likes_count"; "comments_count"; "reports_count";
                 "created_at"; "updated_at"] |}.

Definition VideoSnapshot : table :=
  {| tablename := "video_snapshots";
     columns := ["id"; "video_id"; "views_count"; "likes_count";
                 "comments_count"; "reports_count"; "delta_views_count";
                 "delta_likes_count"; "delta_comments_count";
                 "delta_reports_count"; "created_at"; "updated_at"] |}.

(** ** [QueryIntent] *)

Record QueryIntent : Type := {
  intent : string;
  metric : string;
  time_range : option (PyDict.t string);
  filters : PyDict.t pyval;
  group_by : option string
}.



(** ** [QueryBuilder] *)

Module QueryBuilder.

(** The local state of both builders: [where_clauses] and [params]. *)
Definition state : Type := (list string * PyDict.t pyval)%type.

(** Lines 120-127 and 151-158: the time range. *)
Definition handle_time_range (tr : option (PyDict.t string)) (st : state) : state :=
  match tr with
  | None => st
  | Some d =>
      if PyDict.truthy d then
        let st1 :=
          match PyDict.get "start" d with
          | Some v => ((fst st ++ ["created_at >= :start_date"])%list,
                       PyDict.set "start_date" (PyStr v) (snd st))
          | None => st
          end in
        match PyDict.get "end" d with
        | Some v => ((fst st1 ++ ["created_at <= :end_date"])%list,
                     PyDict.set "end_date" (PyStr v) (snd st1))
        | None => st1
        end
      else st
  end.

(** The body of the loop over [intent.filters.items()]. *)
Definition filter_clause (key : string) : string := key ++ " = :" ++ key.

Definition filter_step (st : state) (kv : string * pyval) : state :=
  ((fst st ++ [filter_clause (fst kv)])%list, PyDict.set (fst kv) (snd kv) (snd st)).

(** Lines 129-132 and 160-163: the filters, in the order of [items()]. *)
Definition handle_filters (fs : PyDict.t pyval) (st : state) : state :=
  fold_left filter_step fs st.

(** The statements the two builders share, from [params = {}] to the end of
    the filter loop. *)
Definition collect (i : QueryIntent) : state :=
  handle_filters (filters i) (handle_time_range (time_range i) ([], [])).

Definition where_clauses (i : QueryIntent) : list string := fst (collect i).
Definition params (i : QueryIntent) : PyDict.t pyval := snd (collect i).

(** [f"WHERE {' AND '.join(where_clauses)}" if where_clauses else ""] *)
Definition where_clause (wc : list string) : string :=
  match wc with
  | [] => ""
  | _ :: _ => "WHERE " ++ String.concat " AND " wc
  end.

Definition _build_count_query (i : QueryIntent) : string * PyDict.t pyval :=
  let (wc, ps) := collect i in
  let query :=
    if String.eqb (metric i) "videos"
    then "SELECT COUNT(*) FROM videos " ++ where_clause wc
    else "SELECT COUNT(DISTINCT video_id) FROM video_snapshots " ++ where_clause wc in
  (query, ps).

Definition metric_columns : PyDict.t string :=
  [("views", "delta_views_count");
   ("likes", "delta_likes_count");
   ("comments", "delta_comments_count");
   ("reports", "delta_reports_count")].

Definition _build_sum_query (i : QueryIntent) : string * PyDict.t pyval :=
  let (wc, ps) := collect i in
  let metric_column :=
    PyDict.get_default (metric i) "delta_views_count" metric_columns in
  let query :=
    "SELECT COALESCE(SUM(" ++ metric_column ++ "), 0) FROM video_snapshots "
    ++ where_clause wc in
  (query, ps).

Definition build_query (i : QueryIntent) : result (string * PyDict.t pyval) :=
  if String.eqb (intent i) "count" then Ok (_build_count_query i)
  else if String.eqb (intent i) "sum" then Ok (_build_sum_query i)
  else Err (ValueError ("Unsupported query type: " ++ intent i)).

End QueryBuilder.

(** Projections of a compilation result. *)
Definition template_of (r : result (string * PyDict.t pyval)) : result string :=
  match r with Ok (q, _) => Ok q | Err e => Err e end.

Definition params_of (r : result (string * PyDict.t pyval)) : PyDict.t pyval :=
  match r with Ok (_, ps) => ps | Err _ => [] end.

Definition is_ok {A : Type} (r : result A) : bool :=
  match r with Ok _ => true | Err _ => false end.

(** [intent.filters[k] = v] *)
Definition with_filter (i : QueryIntent) (k : string) (v : pyval) : QueryIntent :=
  {| intent := intent i; metric := metric i; time_range := time_range i;
     filters := PyDict.set k v (filters i); group_by := group_by i |}.

Definition with_group_by (i : QueryIntent) (g : option string) : QueryIntent :=
  {| intent := intent i; metric := metric i; time_range := time_range i;
     filters := filters i; group_by := g |}.

(** The text before the [WHERE] clause. *)
Definition select_from (i : QueryIntent) : string :=
  if String.eqb (intent i) "count" then
    if String.eqb (metric i) "videos"
    then "SELECT COUNT(*) FROM videos "
    else "SELECT COUNT(DISTINCT video_id) FROM video_snapshots "
  else
    "SELECT COALESCE(SUM("
    ++ PyDict.get_default (metric i) "delta_views_count" QueryBuilder.metric_columns
    ++ "), 0) FROM video_snapshots ".

(** ** A reading of the emitted SQL

    The builders emit text.  To say what a clause means, the fragments are
    read through a small abstract syntax with a printer: a clause string is
    tied to its meaning by being the printed form of a predicate. *)

Module Sql.

Inductive comparison : Type := Ge | Le | Eq.

Definition operator (c : comparison) : string :=
  match c with Ge => ">=" | Le => "<=" | Eq => "=" end.

Record predicate : Type :=
  { column : string; op : comparison; placeholder : string }.

Definition render (p : predicate) : string :=
  column p ++ " " ++ operator (op p) ++ " :" ++ placeholder p.

(** A row gives an integer to each of its columns; a [DateTime] column
    holds an instant. *)
Definition row : Type := PyDict.t Z.

Definition compare (c : comparison) (x y : Z) : bool :=
  match c with
  | Ge => Z.leb y x
  | Le => Z.leb x y
  | Eq => Z.eqb x y
  end.

Section Semantics.
(** The instant the store reads from a date string bound to a parameter. *)
Variable ts : string -> Z.

Definition bound_value (v : pyval) : option Z :=
  match v with
  | PyInt z => Some z
  | PyBool b => Some (if b then 1 else 0)%Z
  | PyStr s => Some (ts s)
  | PyNone => None
  end.

(** [holds r ps p]: row [r] satisfies [p] under the bindings [ps]. *)
Definition holds (r : row) (ps : PyDict.t pyval) (p : predicate) : bool :=
  match PyDict.get (column p) r, PyDict.get (placeholder p) ps with
  | Some x, Some v =>
      match bound_value v with
      | Some y => compare (op p) x y
      | None => false
      end
  | _, _ => false
  end.

End Semantics.

Inductive aggregate : Type :=
| CountRows
| CountDistinct (col : string)
| SumOrZero (col : string).

Definition render_aggregate (a : aggregate) : string :=
  match a with
  | CountRows => "COUNT(*)"
  | CountDistinct col => "COUNT(DISTINCT " ++ col ++ ")"
  | SumOrZero col => "COALESCE(SUM(" ++ col ++ "), 0)"
  end.

Definition column_values (col : string) (rows : list row) : list Z :=
  flat_map (fun r => match PyDict.get col r with Some z => [z] | None => [] end) rows.

(** [SUM] over no value is [NULL]. *)
Definition sql_sum (vs : list Z) : option Z :=
  match vs with
  | [] => None
  | _ :: _ => Some (fold_right Z.add 0%Z vs)
  end.

Definition coalesce (o : option Z) (d : Z) : Z :=
  match o with Some z => z | None => d end.

(** The scalar an aggregate yields on the rows the predicates selected. *)
Definition eval_aggregate (a : aggregate) (rows : list row) : Z :=
  match a with
  | CountRows => Z.of_nat (List.length rows)
  | CountDistinct col => Z.of_nat (List.length (nodup Z.eq_dec (column_values col rows)))
  | SumOrZero col => coalesce (sql_sum (column_values col rows)) 0
  end.

End Sql.

(** The time-range predicates an intent asks for: a lower bound when
    ['start'] is given, an upper bound when ['end'] is given. *)
Definition lower_bound : Sql.predicate :=
  {| Sql.column := "created_at"; Sql.op := Sql.Ge; Sql.placeholder := "start_date" |}.

Definition upper_bound : Sql.predicate :=
  {| Sql.column := "created_at"; Sql.op := Sql.Le; Sql.placeholder := "end_date" |}.

Definition equality (key : string) : Sql.predicate :=
  {| Sql.column := key; Sql.op := Sql.Eq; Sql.placeholder := key |}.

Definition time_predicates (tr : option (PyDict.t string)) : list Sql.predicate :=
  match tr with
  | None => []
  | Some d =>
      (match PyDict.get "start" d with Some _ => [lower_bound] | None => [] end)
      ++ (match PyDict.get "end" d with Some _ => [upper_bound] | None => [] end)
  end%list.

(** [sub] occurs in [s]. *)
Definition occurs_in (sub s : string) : Prop :=
  exists pre post, s = pre ++ sub ++ post.

(** A date string read as the number its digits spell: ["2025-11-28"] is
    [20251128]. *)
Definition digit_of (c : ascii) : option Z :=
  let n := nat_of_ascii c in
  if (Nat.leb 48 n && Nat.leb n 57)%bool then Some (Z.of_nat (n - 48)) else None.

Fixpoint digits_from (acc : Z) (s : string) : Z :=
  match s with
  | EmptyString => acc
  | String c s' =>
      match digit_of c with
      | Some d => digits_from (10 * acc + d) s'
      | None => digits_from acc s'
      end
  end.

Definition date_number (s : string) : Z := digits_from 0 s.

(** ** Building a [QueryIntent] from decoded JSON

    [PydanticOutputParser] decodes the model's answer and hands the object
    to the [QueryIntent] class, whose five annotated fields are all the
    validation there is. *)

Module Pydantic.

(** A member of the decoded object: a scalar or an object of scalars. *)
Inductive raw : Type :=
| Scalar (v : pyval)
| Object (d : PyDict.t pyval).

Section Validation.
(** The library's validator of a [str] field; all that is used of it is
    that it returns a string unchanged. *)
Variable str_validator : pyval -> option string.

Fixpoint dict_str_validator (d : PyDict.t pyval) : option (PyDict.t string) :=
  match d with
  | [] => Some []
  | (k, v) :: d' =>
      match str_validator v, dict_str_validator d' with
      | Some s, Some r => Some ((k, s) :: r)
      | _, _ => None
      end
  end.

(** [intent: str = Field(...)], [metric: str = Field(...)] *)
Definition required_str (name : string) (o : PyDict.t raw) : option string :=
  match PyDict.get name o with
  | Some (Scalar v) => str_validator v
  | _ => None
  end.

(** [time_range: Optional[Dict[str, str]] = Field(None, ...)] *)
Definition optional_dict_str (name : string) (o : PyDict.t raw)
  : option (option (PyDict.t string)) :=
  match PyDict.get name o with
  | None | Some (Scalar PyNone) => Some None
  | Some (Object d) =>
      match dict_str_validator d with Some r => Some (Some r) | None => None end
  | Some (Scalar _) => None
  end.

(** [filters: Dict[str, Any] = Field(default_factory=dict, ...)] *)
Definition dict_any (name : string) (o : PyDict.t raw) : option (PyDict.t pyval) :=
  match PyDict.get name o with
  | None => Some []
  | Some (Object d) => Some d
  | Some (Scalar _) => None
  end.

(** [group_by: Optional[str] = Field(None, ...)] *)
Definition optional_str (name : string) (o : PyDict.t raw) : option (option string) :=
  match PyDict.get name o with
  | None | Some (Scalar PyNone) => Some None
  | Some (Scalar v) =>
      match str_validator v with Some s => Some (Some s) | None => None end
  | Some (Object _) => None
  end.

(** The fields that did not validate, in declaration order. *)
Definition missing {A : Type} (name : string) (o : option A) : list string :=
  match o with Some _ => [] | None => [name] end.

(** [QueryIntent.parse_obj(obj)]: every field is validated, and the
    failures are raised together. *)
Definition parse_obj (o : PyDict.t raw) : result QueryIntent :=
  let a := required_str "intent" o in
  let m := required_str "metric" o in
  let tr := optional_dict_str "time_range" o in
  let fs := dict_any "filters" o in
  let g := optional_str "group_by" o in
  match a, m, tr, fs, g with
  | Some a, Some m, Some tr, Some fs, Some g =>
      Ok {| intent := a; metric := m; time_range := tr; filters := fs;
            group_by := g |}
  | _, _, _, _, _ =>
      Err (ValidationError
             (missing "intent" a ++ missing "metric" m
              ++ missing "time_range" tr ++ missing "filters" fs
              ++ missing "group_by" g)%list)
  end.

End Validation.

(** One validator among those the parameter ranges over: the one that
    takes strings only.  Where the library would print a number given for
    a [str] field, this one refuses it; the two agree on strings, and it is
    applied to decoded objects whose scalars are strings. *)
Definition strict_str (v : pyval) : option string :=
  match v with PyStr s => Some s | _ => None end.

(** [i.dict()] as the decoded object it validates from. *)
Definition dump (i : QueryIntent) : PyDict.t raw :=
  [("intent", Scalar (PyStr (intent i)));
   ("metric", Scalar (PyStr (metric i)));
   ("time_range", match time_range i with
                  | Some d => Object (map (fun kv => (fst kv, PyStr (snd kv))) d)
                  | None => Scalar PyNone
                  end);
   ("filters", Object (filters i));
   ("group_by", match group_by i with
                | Some g => Scalar (PyStr g)
                | None => Scalar PyNone
                end)].

End Pydantic.

(** ** The intents of the scenarios *)

Definition scenario_A : QueryIntent :=
  {| intent := "count"; metric := "videos"; time_range := None;
     filters := []; group_by := None |}.

Definition scenario_B : QueryIntent :=
  {| intent := "count"; metric := "videos";
     time_range := Some [("start", "2025-11-01"); ("end", "2025-11-05")];
     filters := [("creator_id", PyInt 123)]; group_by := None |}.

Definition scenario_C : QueryIntent :=
  {| intent := "sum"; metric := "views";
     time_range := Some [("start", "2025-11-28"); ("end", "2025-11-28")];
     filters := []; group_by := None |}.

Definition scenario_D : QueryIntent :=
  {| intent := "count"; metric := "views";
     time_range := Some [("start", "2025-11-27"); ("end", "2025-11-27")];
     filters := [("min_delta_views", PyInt 1)]; group_by := None |}.

Definition scenario_E : QueryIntent :=
  {| intent := "median"; metric := "views"; time_range := None;
     filters := []; group_by := None |}.

(** An intent none of whose names is a column, a metric or a grouping of
    the two tables. *)
Definition hostile_intent : QueryIntent :=
  {| intent := "count"; metric := "bogus"; time_range := None;
     filters := [("1=1; DROP TABLE videos; --", PyInt 0)];
     group_by := Some "nonsense" |}.



(** A decoded answer with an unknown kind, an unknown metric, bounds that
    are no dates and are out of order, an unknown filter and a filter value
    that is no number. *)
Definition malformed_answer : PyDict.t Pydantic.raw :=
  [("intent", Pydantic.Scalar (PyStr "median"));
   ("metric", Pydantic.Scalar (PyStr "bogus"));
   ("time_range", Pydantic.Object [("start", PyStr "zzz"); ("end", PyStr "aaa")]);
   ("filters", Pydantic.Object [("no_such_key", PyStr "x");
                                ("creator_id", PyStr "not a number")])].

(** The value an optional time range holds under [name], if any. *)
Definition time_bound (name : string) (tr : option (PyDict.t string)) : option string :=
  match tr with Some d => PyDict.get name d | None => None end.

Definition given {A : Type} (o : option A) : bool :=
  match o with Some _ => true | None => false end.

(** The predicates of an intent, in the order in which they are emitted. *)
Definition predicates (i : QueryIntent) : list Sql.predicate :=
  (time_predicates (time_range i) ++ map equality (PyDict.keys (filters i)))%list.

Definition with_metric (i : QueryIntent) (m : string) : QueryIntent :=
  {| intent := intent i; metric := m; time_range := time_range i;
     filters := filters i; group_by := group_by i |}.

From Stdlib Require Import Numbers.DecimalString.

(** ** [main.py] *)

Module Main.

Inductive event : Type :=
| LoadDotenv
| LogError (text : string)
| LogInfo (text : string)
| InitDb
| StartBot.

Definition required_vars : list string :=
  ["TELEGRAM_BOT_TOKEN"; "OPENAI_API_KEY"; "POSTGRES_USER";
   "POSTGRES_PASSWORD"; "POSTGRES_DB"; "POSTGRES_HOST"; "POSTGRES_PORT"].

(** [not os.getenv(var)]: the variable is unset or empty. *)
Definition unset (environ : PyDict.t string) (var : string) : bool :=
  match PyDict.get var environ with
  | None => true
  | Some value => String.eqb value ""
  end.

Definition missing_vars (environ : PyDict.t string) : list string :=
  filter (unset environ) required_vars.

(** [main()], as the sequence of what it does.  [environ] is the
    environment once [load_dotenv()] has run; [init_db] and [start_bot]
    say whether the collaborator returns ([None]) or raises an exception
    with the given text. *)
Definition main (environ : PyDict.t string) (init_db start_bot : option string)
  : list event :=
  LoadDotenv ::
  match missing_vars environ with
  | (_ :: _) as missing =>
      [LogError ("Missing required environment variables: "
                 ++ String.concat ", " missing);
       LogInfo "Please copy .env.example to .env and fill in the required values."]
  | [] =>
      (LogInfo "Initializing database..." :: InitDb ::
       match init_db with
       | Some e => [LogError ("An error occurred: " ++ e)]
       | None =>
           LogInfo "Starting Telegram bot..." :: StartBot ::
           match start_bot with
           | Some e => [LogError ("An error occurred: " ++ e)]
           | None => []
           end
       end)
      ++ [LogInfo "Bot has been stopped."]
  end%list.

End Main.

(** ** [NLPService.parse_query] and the handler of [app/bot.py] *)

(** [str(v)] *)
Definition py_str (v : pyval) : string :=
  match v with
  | PyNone => "None"
  | PyBool true => "True"
  | PyBool false => "False"
  | PyInt z => DecimalString.NilZero.string_of_int (Z.to_int z)
  | PyStr s => s
  end.

Module Bot.

(** An exception the handler catches: one raised by the service or the
    builder, or one raised by a collaborator, known by its text. *)
Inductive failure : Type :=
| Raised (e : exn)
| External (text : string).

(** The object an f-string formats after the text of a log line. *)
Inductive logged : Type :=
| Nothing
| AnIntent (i : QueryIntent)
| SomeParams (ps : PyDict.t pyval).

Inductive event : Type :=
| Print (text : string)
| Typing
| LogInfo (text : string) (arg : logged)
| LogError (text : string) (e : failure)
| Execute (query : string) (params : PyDict.t pyval)
| Reply (text : string).

Definition unparsed : string :=
  "Не удалось обработать ваш запрос. Пожалуйста, сформулируйте его иначе.".

Definition error_response : string :=
  "❌ Произошла ошибка при обработке вашего запроса. Пожалуйста, попробуйте сформулировать его иначе.".

Section Collaborators.
(** [self.chain.run(...)]: the intent the chain returns, or the text of the
    exception it raises. *)
Variable chain_run : string -> QueryIntent + string.
(** [await types.ChatActions.typing()]: [None] when it returns. *)
Variable typing : option string.
(** Line 87, [next(get_db())]: [None] when a session comes back, the text
    of the exception otherwise. *)
Variable get_db : option string.
(** Line 88, [db.execute(text(query), params).scalar()]: the scalar of the
    result, or the text of the exception raised. *)
Variable execute : string -> PyDict.t pyval -> pyval + string.

Definition parse_query (question : string) : list event * result QueryIntent :=
  match chain_run question with
  | inl response => ([], Ok response)
  | inr e => ([Print ("Error parsing query: " ++ e)], Err (ValueError unparsed))
  end.

(** The [except] branch, followed by the reply. *)
Definition rescue (e : failure) : list event :=
  [LogError "Error processing message: " e; Reply error_response].

Definition handle_message (text : string) : list event :=
  (Typing ::
   match typing with
   | Some e => rescue (External e)
   | None =>
       let (printed, parsed) := parse_query text in
       printed ++
       match parsed with
       | Err e => rescue (Raised e)
       | Ok i =>
           LogInfo "Parsed intent: " (AnIntent i) ::
           match QueryBuilder.build_query i with
           | Err e => rescue (Raised e)
           | Ok (query, params) =>
               LogInfo ("Generated query: " ++ query) Nothing ::
               LogInfo "Query params: " (SomeParams params) ::
               match get_db with
               | Some e => rescue (External e)
               | None =>
                   Execute query params ::
                   match execute query params with
                   | inr e => rescue (External e)
                   | inl r => [Reply ("📊 Результат: " ++ py_str r)]
                   end
               end
           end
       end
   end)%list.

End Collaborators.

(** The statements a run sent to the store, and its replies. *)
Definition executed (evs : list event) : list (string * PyDict.t pyval) :=
  flat_map (fun ev => match ev with Execute q ps => [(q, ps)] | _ => [] end) evs.

Definition replies (evs : list event) : list string :=
  flat_map (fun ev => match ev with Reply r => [r] | _ => [] end) evs.

End Bot.

(** ** [scripts/load_data.py] *)

Module LoadData.

Local Unset Elimination Schemes.

(** What [json.load] returns (numbers with a fraction apart). *)
Inductive json : Type :=
| JNone
| JBool (b : bool)
| JInt (z : Z)
| JStr (s : string)
| JList (items : list json)
| JDict (members : list (string * json)).

Local Set Elimination Schemes.

Inductive raised : Type :=
| KeyError (key : string)
| TypeError
| AttributeError
| ValueError (dt_str : string).

Inductive outcome (A : Type) : Type :=
| Returned (a : A)
| Threw (e : raised).

Arguments Returned {A} a.
Arguments Threw {A} e.

Definition and_then {A B : Type} (c : outcome A) (k : A -> outcome B) : outcome B :=
  match c with Returned a => k a | Threw e => Threw e end.

(** [o[key]] *)
Definition subscript (o : json) (key : string) : outcome json :=
  match o with
  | JDict d =>
      match PyDict.get key d with
      | Some v => Returned v
      | None => Threw (KeyError key)
      end
  | _ => Threw TypeError
  end.

(** [o.get(key, default)] *)
Definition method_get (o : json) (key : string) (default : json) : outcome json :=
  match o with
  | JDict d => Returned (PyDict.get_default key default d)
  | _ => Threw AttributeError
  end.

(** The elements [for x in o] goes through: the items of a list, the keys
    of a dictionary, the characters of a string (one per byte here). *)
Definition iterate (o : json) : outcome (list json) :=
  match o with
  | JList l => Returned l
  | JDict d => Returned (map (fun kv => JStr (fst kv)) d)
  | JStr s => Returned (map (fun c => JStr (String c "")) (list_ascii_of_string s))
  | _ => Threw TypeError
  end.

(** The instances of the two mapped classes. *)
Module VideoRow.
Set Implicit Arguments.
Record t (datetime : Type) : Type := {
  id : json;
  creator_id : json;
  video_created_at : datetime;
  views_count : json;
  likes_count : json;
  comments_count : json;
  reports_count : json;
  created_at : datetime;
  updated_at : datetime
}.
Unset Implicit Arguments.
End VideoRow.

Module SnapshotRow.
Set Implicit Arguments.
Record t (datetime : Type) : Type := {
  id : json;
  video_id : json;
  views_count : json;
  likes_count : json;
  comments_count : json;
  reports_count : json;
  delta_views_count : json;
  delta_likes_count : json;
  delta_comments_count : json;
  delta_reports_count : json;
  created_at : datetime;
  updated_at : datetime
}.
Unset Implicit Arguments.
End SnapshotRow.

Section Loader.
Variable datetime : Type.
(** [datetime.strptime(dt_str, format)] on strings; [None] is its
    [ValueError]. *)
Variable strptime : string -> string -> option datetime.

Definition parse_datetime (dt_str : json) : outcome datetime :=
  match dt_str with
  | JStr s =>
      match strptime s "%Y-%m-%dT%H:%M:%S.%fZ" with
      | Some t => Returned t
      | None =>
          match strptime s "%Y-%m-%dT%H:%M:%SZ" with
          | Some t => Returned t
          | None =>
              match strptime s "%Y-%m-%d %H:%M:%S" with
              | Some t => Returned t
              | None => Threw (ValueError s)
              end
          end
      end
  | _ => Threw TypeError
  end.

(** The objects added to the session, oldest first. *)
Inductive object : Type :=
| AVideo (v : VideoRow.t datetime)
| ASnapshot (s : SnapshotRow.t datetime).

Definition session : Type := list object.

(** The call [Video(id=..., ...)]: the arguments are read from left to
    right. *)
Definition Video_init (video_data : json) : outcome (VideoRow.t datetime) :=
  and_then (subscript video_data "id") (fun id =>
  and_then (subscript video_data "creator_id") (fun creator_id =>
  and_then (and_then (subscript video_data "video_created_at") parse_datetime)
           (fun video_created_at =>
  and_then (subscript video_data "views_count") (fun views_count =>
  and_then (method_get video_data "likes_count" (JInt 0)) (fun likes_count =>
  and_then (method_get video_data "comments_count" (JInt 0)) (fun comments_count =>
  and_then (method_get video_data "reports_count" (JInt 0)) (fun reports_count =>
  and_then (and_then (subscript video_data "created_at") parse_datetime)
           (fun created_at =>
  and_then (and_then (subscript video_data "updated_at") parse_datetime)
           (fun updated_at =>
  Returned
    {| VideoRow.id := id; VideoRow.creator_id := creator_id;
       VideoRow.video_created_at := video_created_at;
       VideoRow.views_count := views_count;
       VideoRow.likes_count := likes_count;
       VideoRow.comments_count := comments_count;
       VideoRow.reports_count := reports_count;
       VideoRow.created_at := created_at;
       VideoRow.updated_at := updated_at |}))))))))).

(** The call [VideoSnapshot(id=..., video_id=video.id, ...)]. *)
Definition VideoSnapshot_init (video : VideoRow.t datetime) (snapshot_data : json)
  : outcome (SnapshotRow.t datetime) :=
  and_then (subscript snapshot_data "id") (fun id =>
  and_then (subscript snapshot_data "views_count") (fun views_count =>
  and_then (method_get snapshot_data "likes_count" (JInt 0)) (fun likes_count =>
  and_then (method_get snapshot_data "comments_count" (JInt 0)) (fun comments_count =>
  and_then (method_get snapshot_data "reports_count" (JInt 0)) (fun reports_count =>
  and_then (method_get snapshot_data "delta_views_count" (JInt 0)) (fun delta_views =>
  and_then (method_get snapshot_data "delta_likes_count" (JInt 0)) (fun delta_likes =>
  and_then (method_get snapshot_data "delta_comments_count" (JInt 0))
           (fun delta_comments =>
  and_then (method_get snapshot_data "delta_reports_count" (JInt 0))
           (fun delta_reports =>
  and_then (and_then (subscript snapshot_data "created_at") parse_datetime)
           (fun created_at =>
  and_then (and_then (subscript snapshot_data "updated_at") parse_datetime)
           (fun updated_at =>
  Returned
    {| SnapshotRow.id := id;
       SnapshotRow.video_id := VideoRow.id video;
       SnapshotRow.views_count := views_count;
       SnapshotRow.likes_count := likes_count;
       SnapshotRow.comments_count := comments_count;
       SnapshotRow.reports_count := reports_count;
       SnapshotRow.delta_views_count := delta_views;
       SnapshotRow.delta_likes_count := delta_likes;
       SnapshotRow.delta_comments_count := delta_comments;
       SnapshotRow.delta_reports_count := delta_reports;
       SnapshotRow.created_at := created_at;
       SnapshotRow.updated_at := updated_at |}))))))))))).

(** The loop over the snapshots: each one is built and added; the first
    exception ends the loop and leaves the session as it is by then. *)
Fixpoint insert_snapshots (video : VideoRow.t datetime) (items : list json)
                          (db : session) : session * outcome unit :=
  match items with
  | [] => (db, Returned tt)
  | snapshot_data :: rest =>
      match VideoSnapshot_init video snapshot_data with
      | Threw e => (db, Threw e)
      | Returned snapshot =>
          insert_snapshots video rest (db ++ [ASnapshot snapshot])%list
      end
  end.

Definition insert_video (db : session) (video_data : json)
  : session * outcome (VideoRow.t datetime) :=
  match Video_init video_data with
  | Threw e => (db, Threw e)
  | Returned video =>
      let db := (db ++ [AVideo video])%list in
      match and_then (method_get video_data "snapshots" (JList [])) iterate with
      | Threw e => (db, Threw e)
      | Returned items =>
          match insert_snapshots video items db with
          | (db, Threw e) => (db, Threw e)
          | (db, Returned _) => (db, Returned video)
          end
      end
  end.

End Loader.

(** The snapshots built from [items] before the first that raises. *)
Fixpoint built {datetime : Type} (init : json -> outcome (SnapshotRow.t datetime))
               (items : list json) : list (SnapshotRow.t datetime) :=
  match items with
  | [] => []
  | x :: rest =>
      match init x with
      | Returned s => s :: built init rest
      | Threw _ => []
      end
  end.

End LoadData.

(** A reader of dates that takes the third format only and keeps the
    string as the reading, and two records of a video file. *)
Definition plain_strptime (dt_str format : string) : option string :=
  if String.eqb format "%Y-%m-%d %H:%M:%S" then Some dt_str else None.

Definition sample_snapshot : LoadData.json :=
  LoadData.JDict
    [("id", LoadData.JInt 70); ("video_id", LoadData.JInt 999);
     ("views_count", LoadData.JInt 4); ("delta_views_count", LoadData.JInt 4);
     ("created_at", LoadData.JStr "2025-11-02 00:00:00");
     ("updated_at", LoadData.JStr "2025-11-02 00:00:00")].

Definition sample_video (snapshots : list LoadData.json) : LoadData.json :=
  LoadData.JDict
    [("id", LoadData.JInt 7); ("creator_id", LoadData.JInt 1);
     ("video_created_at", LoadData.JStr "2025-11-01 10:00:00");
     ("views_count", LoadData.JInt 10);
     ("created_at", LoadData.JStr "2025-11-01 10:00:05");
     ("updated_at", LoadData.JStr "2025-11-02 00:00:00");
     ("snapshots", LoadData.JList snapshots)].

Definition sample_video_row : LoadData.VideoRow.t string :=
  {| LoadData.VideoRow.id := LoadData.JInt 7;
     LoadData.VideoRow.creator_id := LoadData.JInt 1;
     LoadData.VideoRow.video_created_at := "2025-11-01 10:00:00";
     LoadData.VideoRow.views_count := LoadData.JInt 10;
     LoadData.VideoRow.likes_count := LoadData.JInt 0;
     LoadData.VideoRow.comments_count := LoadData.JInt 0;
     LoadData.VideoRow.reports_count := LoadData.JInt 0;
     LoadData.VideoRow.created_at := "2025-11-01 10:00:05";
     LoadData.VideoRow.updated_at := "2025-11-02 00:00:00" |}.

(** [type(e).__name__] *)
Definition exception_class (e : exn) : string :=
  match e with
  | ValueError _ => "ValueError"
  | ValidationError _ => "ValidationError"
  end.

(** A time range with both bounds, and a filter that bears the name of the
    lower bound's placeholder. *)
Definition shadowed_bound : QueryIntent :=
  {| intent := "count"; metric := "videos";
     time_range := Some [("start", "2025-11-01"); ("end", "2025-11-05")];
     filters := [("start_date", PyStr "2030-01-01")]; group_by := None |}.

(** ** Dictionary lemmas *)

Module PyDictFacts.
Import PyDict.

Section Facts.
Context {V : Type}.
Implicit Types (d : PyDict.t V) (k : string) (v : V).

Lemma get_set k' k v d :
  get k' (set k v d) = if String.eqb k' k then Some v else get k' d.
Proof.
  induction d as [|[k0 v0] d IH]; simpl.
  - reflexivity.
  - destruct (String.eqb k k0) eqn:E; simpl.
    + apply String.eqb_eq in E; subst k0.
      destruct (String.eqb k' k); reflexivity.
    + rewrite IH.
      destruct (String.eqb k' k0) eqn:E0; [|reflexivity].
      apply String.eqb_eq in E0; subst k0.
      destruct (String.eqb k' k) eqn:E1; [|reflexivity].
      apply String.eqb_eq in E1; subst k'.
      rewrite String.eqb_refl in E; discriminate.
Qed.

Lemma get_set_same k v d : get k (set k v d) = Some v.
Proof. rewrite get_set, String.eqb_refl; reflexivity. Qed.

Lemma get_set_other k' k v d : k' <> k -> get k' (set k v d) = get k' d.
Proof.
  intros H; rewrite get_set.
  destruct (String.eqb k' k) eqn:E; [|reflexivity].
  apply String.eqb_eq in E; contradiction.
Qed.

Lemma keys_set k v1 v2 d1 d2 :
  keys d1 = keys d2 -> keys (set k v1 d1) = keys (set k v2 d2).
Proof.
  revert d2; induction d1 as [|[k1 w1] d1 IH]; intros [|[k2 w2] d2] H;
    simpl in *; try discriminate; [reflexivity|].
  injection H as -> H.
  destruct (String.eqb k k2); simpl; f_equal; auto.
Qed.

Lemma get_None_not_in k d : get k d = None <-> ~ In k (keys d).
Proof.
  induction d as [|[k0 v0] d IH]; simpl.
  - tauto.
  - destruct (String.eqb k k0) eqn:E.
    + apply String.eqb_eq in E; subst; split; [discriminate | tauto].
    + apply String.eqb_neq in E; rewrite IH; split.
      * intros H [H1|H1]; [congruence | tauto].
      * tauto.
Qed.

Lemma get_In k v d : get k d = Some v -> In (k, v) d.
Proof.
  induction d as [|[k0 v0] d IH]; simpl; [discriminate|].
  destruct (String.eqb k k0) eqn:E.
  - apply String.eqb_eq in E; subst; intros [= ->]; auto.
  - auto.
Qed.


End Facts.
End PyDictFacts.

(** ** What the shared statements of the builders compute *)

Module QueryBuilderFacts.
Import PyDict PyDictFacts QueryBuilder.

Lemma handle_filters_clauses fs st :
  fst (handle_filters fs st) = (fst st ++ map filter_clause (keys fs))%list.
Proof.
  unfold handle_filters; revert st.
  induction fs as [|[k v] fs IH]; intros st; simpl.
  - rewrite app_nil_r; reflexivity.
  - rewrite IH; simpl; rewrite <- app_assoc; reflexivity.
Qed.


Lemma handle_filters_bound fs st k :
  mem k (snd st) = true \/ In k (keys fs) ->
  mem k (snd (handle_filters fs st)) = true.
Proof.
  unfold handle_filters; revert st.
  induction fs as [|[k0 v0] fs IH]; intros st H; simpl in *.
  - tauto.
  - apply IH; simpl; unfold mem; rewrite get_set.
    destruct (String.eqb k k0) eqn:E; [auto|].
    apply String.eqb_neq in E.
    destruct H as [H|[H|H]]; [left; exact H | congruence | auto].
Qed.

Lemma handle_filters_keys fs1 fs2 st1 st2 :
  keys fs1 = keys fs2 -> keys (snd st1) = keys (snd st2) ->
  keys (snd (handle_filters fs1 st1)) = keys (snd (handle_filters fs2 st2)).
Proof.
  unfold handle_filters; revert fs2 st1 st2.
  induction fs1 as [|[k1 v1] fs1 IH]; intros [|[k2 v2] fs2] st1 st2 Hk Hs;
    simpl in *; try discriminate; [exact Hs|].
  injection Hk as -> Hk.
  apply IH; [exact Hk|]; simpl; apply keys_set; exact Hs.
Qed.

(** Two runs of the loop over items that carry the same keys, and the same
    values except under [k], leave parameter mappings that agree except at
    [k]. *)
Lemma handle_filters_agree k fs1 fs2 st1 st2 :
  Forall2 (fun a b => fst a = fst b /\ (fst a <> k -> snd a = snd b)) fs1 fs2 ->
  (forall k', k' <> k -> get k' (snd st1) = get k' (snd st2)) ->
  forall k', k' <> k ->
    get k' (snd (handle_filters fs1 st1)) = get k' (snd (handle_filters fs2 st2)).
Proof.
  unfold handle_filters; intros HF; revert st1 st2.
  induction HF as [|[k1 v1] [k2 v2] fs1 fs2 [Hk Hv] HF IH]; intros st1 st2 Hs;
    simpl in *; [exact Hs|].
  subst k2; apply IH; simpl; intros k' Hk'.
  rewrite !get_set.
  destruct (String.eqb k' k1) eqn:E; [|auto].
  apply String.eqb_eq in E; subst k1; rewrite Hv; auto.
Qed.

Lemma set_pointwise k (v1 v2 : pyval) d :
  Forall2 (fun a b => fst a = fst b /\ (fst a <> k -> snd a = snd b))
          (set k v1 d) (set k v2 d).
Proof.
  induction d as [|[k0 v0] d IH]; simpl.
  - constructor; [|constructor]; simpl; split; [reflexivity|congruence].
  - destruct (String.eqb k k0) eqn:E.
    + apply String.eqb_eq in E; subst k0.
      constructor; [simpl; split; [reflexivity|congruence]|].
      clear; induction d; constructor; auto.
    + constructor; [simpl; auto | exact IH].
Qed.

Lemma handle_time_range_clauses tr :
  fst (handle_time_range tr ([], [])) = map Sql.render (time_predicates tr).
Proof.
  destruct tr as [d|]; [|reflexivity]; simpl.
  destruct d as [|kv d]; [reflexivity|].
  cbv [truthy].
  destruct (get "start" (kv :: d)), (get "end" (kv :: d)); reflexivity.
Qed.

(** Time range first, then one equality per filter, in the order of
    [intent.filters.items()]. *)
Lemma where_clauses_eq i :
  where_clauses i
  = (map Sql.render (time_predicates (time_range i))
     ++ map filter_clause (keys (filters i)))%list.
Proof.
  unfold where_clauses, collect.
  rewrite handle_filters_clauses, handle_time_range_clauses; reflexivity.
Qed.

Lemma filter_clause_equality k : filter_clause k = Sql.render (equality k).
Proof. reflexivity. Qed.

Lemma append_assoc (a b c : string) : (a ++ b) ++ c = a ++ b ++ c.
Proof. induction a; simpl; congruence. Qed.

Lemma build_query_supported i :
  intent i = "count" \/ intent i = "sum" ->
  build_query i
  = Ok (select_from i ++ where_clause (where_clauses i), params i).
Proof.
  unfold build_query, _build_count_query, _build_sum_query, select_from,
    where_clauses, params.
  destruct (collect i) as [wc ps]; simpl.
  intros [H|H]; rewrite H; simpl.
  - destruct (String.eqb (metric i) "videos"); reflexivity.
  - rewrite append_assoc; reflexivity.
Qed.

Lemma build_query_unsupported i :
  intent i <> "count" -> intent i <> "sum" ->
  build_query i = Err (ValueError ("Unsupported query type: " ++ intent i)).
Proof.
  intros H1 H2; unfold build_query.
  apply String.eqb_neq in H1, H2; rewrite H1, H2; reflexivity.
Qed.

Lemma intent_cases i :
  (intent i = "count" \/ intent i = "sum")
  \/ (intent i <> "count" /\ intent i <> "sum").
Proof.
  destruct (String.eqb (intent i) "count") eqn:E1;
    [apply String.eqb_eq in E1; auto|].
  destruct (String.eqb (intent i) "sum") eqn:E2;
    [apply String.eqb_eq in E2; auto|].
  apply String.eqb_neq in E1, E2; auto.
Qed.


(** The bindings the time range leaves before the filter loop runs. *)
Lemma handle_time_range_params tr :
  snd (handle_time_range (Some tr) ([], []))
  = ((match get "start" tr with
      | Some v => [("start_date", PyStr v)] | None => [] end)
     ++ (match get "end" tr with
         | Some v => [("end_date", PyStr v)] | None => [] end))%list.
Proof.
  destruct tr as [|kv tr]; [reflexivity|].
  cbv [handle_time_range truthy].
  destruct (get "start" (kv :: tr)), (get "end" (kv :: tr)); reflexivity.
Qed.

Lemma params_eq i :
  params i
  = snd (handle_filters (filters i)
           (map Sql.render (time_predicates (time_range i)),
            snd (handle_time_range (time_range i) ([], [])))).
Proof.
  unfold params, collect.
  rewrite <- handle_time_range_clauses, <- surjective_pairing; reflexivity.
Qed.

Lemma concat_occurs sep c wc :
  In c wc -> occurs_in c (String.concat sep wc).
Proof.
  induction wc as [|x xs IH]; [intros []|].
  intros [->|H].
  - destruct xs as [|y ys]; simpl.
    + exists "", ""; simpl; clear; induction c; simpl; congruence.
    + exists "", (sep ++ String.concat sep (y :: ys)); reflexivity.
  - destruct xs as [|y ys]; [destruct H|].
    destruct (IH H) as (pre & post & E).
    exists (x ++ sep ++ pre), post.
    change (String.concat sep (x :: y :: ys))
      with (x ++ sep ++ String.concat sep (y :: ys)).
    rewrite E, !append_assoc; reflexivity.
Qed.

Lemma occurs_in_where_clause c wc :
  In c wc -> occurs_in c (where_clause wc).
Proof.
  intros H; destruct wc as [|x xs]; [destruct H|].
  destruct (concat_occurs " AND " c (x :: xs) H) as (pre & post & E).
  exists ("WHERE " ++ pre), post; unfold where_clause; rewrite E.
  rewrite append_assoc; reflexivity.
Qed.

Lemma occurs_in_append pre c s : occurs_in c s -> occurs_in c (pre ++ s).
Proof.
  intros (a & b & ->); exists (pre ++ a), b; rewrite append_assoc; reflexivity.
Qed.

Lemma build_query_ext i1 i2 :
  intent i1 = intent i2 -> metric i1 = metric i2 ->
  time_range i1 = time_range i2 -> filters i1 = filters i2 ->
  build_query i1 = build_query i2.
Proof.
  destruct i1, i2; simpl; intros -> -> -> ->; reflexivity.
Qed.

End QueryBuilderFacts.

(** ** Properties of the compiled query *)

Import PyDict PyDictFacts QueryBuilder QueryBuilderFacts.

(** C1 (injection safety).  Whatever the intent and the filter key, storing
    one value or another under that key leaves the compiled template the
    same text (or the same failure); the two parameter mappings carry the
    same names in the same order and agree on every name but that key. *)
Theorem filter_value_never_reaches_template :
  forall (i : QueryIntent) (k : string) (v1 v2 : pyval),
    template_of (build_query (with_filter i k v1))
    = template_of (build_query (with_filter i k v2))
    /\ keys (params_of (build_query (with_filter i k v1)))
       = keys (params_of (build_query (with_filter i k v2)))
    /\ (forall k', k' <> k ->
          get k' (params_of (build_query (with_filter i k v1)))
          = get k' (params_of (build_query (with_filter i k v2)))).
Proof.
  intros i k v1 v2.
  destruct (intent_cases i) as [Hs|[H1 H2]].
  - rewrite !build_query_supported by exact Hs; simpl.
    rewrite !where_clauses_eq; simpl.
    rewrite (keys_set k v1 v2 (filters i) (filters i) eq_refl).
    split; [reflexivity|].
    unfold params, collect; simpl; split.
    + apply handle_filters_keys; [apply keys_set|]; reflexivity.
    + apply handle_filters_agree; [apply set_pointwise | reflexivity].
  - rewrite !build_query_unsupported by assumption; simpl; auto.
Qed.

Lemma filter_value_never_reaches_template_witness :
  template_of (build_query
                 (with_filter scenario_B "creator_id"
                              (PyStr "1'; DROP TABLE videos; --")))
  = template_of (build_query (with_filter scenario_B "creator_id" (PyInt 123)))
  /\ get "creator_id"
         (params_of (build_query
                       (with_filter scenario_B "creator_id"
                                    (PyStr "1'; DROP TABLE videos; --"))))
     = Some (PyStr "1'; DROP TABLE videos; --").
Proof.
  split.
  - apply (filter_value_never_reaches_template scenario_B "creator_id").
  - reflexivity.
Defined.

(** C3 (unsupported aggregation), refuted as to the kind of the error:
    for the kind [median] the builder raises a plain [ValueError].  That is
    no exception of its own: it is the class [parse_query] raises when the
    chain fails, and the handler gives the same reply to both. *)
Lemma unsupported_aggregation_counterexample :
  build_query scenario_E = Err (ValueError "Unsupported query type: median")
  /\ exception_class (ValueError "Unsupported query type: median")
     <> "UnsupportedAggregationError"
  /\ snd (Bot.parse_query (fun _ => inr "timed out") "how many videos?")
     = Err (ValueError Bot.unparsed)
  /\ exception_class (ValueError "Unsupported query type: median")
     = exception_class (ValueError Bot.unparsed)
  /\ Bot.replies (Bot.handle_message (fun _ => inl scenario_E) None None
                                     (fun _ _ => inl (PyInt 0)) "median?")
     = Bot.replies (Bot.handle_message (fun _ => inr "timed out") None None
                                       (fun _ _ => inl (PyInt 0)) "median?").
Proof.
  repeat split; discriminate.
Qed.

(** C3 as the code has it.  An intent whose kind is neither [count] nor
    [sum] does not compile: [build_query] raises a [ValueError] with the
    kind in its message, and no query is produced. *)
Theorem unsupported_aggregation_raises :
  forall i : QueryIntent,
    intent i <> "count" -> intent i <> "sum" ->
    build_query i = Err (ValueError ("Unsupported query type: " ++ intent i))
    /\ is_ok (build_query i) = false.
Proof.
  intros i H1 H2; rewrite build_query_unsupported by assumption.
  split; reflexivity.
Qed.

Lemma unsupported_aggregation_raises_witness :
  build_query scenario_E = Err (ValueError "Unsupported query type: median").
Proof.
  apply (unsupported_aggregation_raises scenario_E); discriminate.
Defined.

(** C10 (default column of a sum).  A [sum] whose metric is none of views,
    likes, comments, reports compiles, and sums [delta_views_count]. *)
Theorem sum_unknown_metric_sums_delta_views :
  forall i : QueryIntent,
    intent i = "sum" ->
    ~ In (metric i) ["views"; "likes"; "comments"; "reports"] ->
    build_query i
    = Ok ("SELECT COALESCE(SUM(delta_views_count), 0) FROM video_snapshots "
          ++ where_clause (where_clauses i), params i).
Proof.
  intros i Hi Hm.
  rewrite build_query_supported by auto.
  change ["views"; "likes"; "comments"; "reports"] with (keys metric_columns) in Hm.
  apply get_None_not_in in Hm.
  unfold select_from, get_default; rewrite Hm, Hi; reflexivity.
Qed.

Lemma sum_unknown_metric_sums_delta_views_witness :
  build_query {| intent := "sum"; metric := "shares"; time_range := None;
                 filters := []; group_by := None |}
  = Ok ("SELECT COALESCE(SUM(delta_views_count), 0) FROM video_snapshots ", []).
Proof.
  apply (sum_unknown_metric_sums_delta_views
           {| intent := "sum"; metric := "shares"; time_range := None;
              filters := []; group_by := None |}).
  - reflexivity.
  - simpl; intros [H|[H|[H|[H|[]]]]]; discriminate.
Defined.

(** C7 (counting videos).  A [count] of the metric [videos] counts the rows
    of [videos]; with no time range and no filter the template has no
    [WHERE] clause and no parameter; with both bounds and the single filter
    [creator_id] it has the two inclusive bounds on [created_at], the
    equality on [creator_id], and three parameters. *)
Theorem count_videos_counts_video_rows :
  forall i : QueryIntent,
    intent i = "count" -> metric i = "videos" ->
    build_query i
    = Ok ("SELECT " ++ Sql.render_aggregate Sql.CountRows ++ " FROM "
          ++ tablename Video ++ " " ++ where_clause (where_clauses i),
          params i)
    /\ (time_range i = None -> filters i = [] ->
        build_query i = Ok ("SELECT COUNT(*) FROM videos ", []))
    /\ (forall tr D1 D2 c,
          time_range i = Some tr ->
          get "start" tr = Some D1 -> get "end" tr = Some D2 ->
          filters i = [("creator_id", c)] ->
          build_query i
          = Ok ("SELECT COUNT(*) FROM videos WHERE created_at >= :start_date"
                ++ " AND created_at <= :end_date AND creator_id = :creator_id",
                [("start_date", PyStr D1); ("end_date", PyStr D2);
                 ("creator_id", c)])
          /\ where_clauses i
             = map Sql.render [lower_bound; upper_bound; equality "creator_id"]
          /\ List.length (params i) = 3).
Proof.
  intros i Hi Hm.
  rewrite build_query_supported by auto.
  unfold select_from; rewrite Hi, Hm; simpl.
  split; [reflexivity|]; split.
  - intros Ht Hf.
    rewrite where_clauses_eq, params_eq, Ht, Hf; reflexivity.
  - intros tr D1 D2 c Ht Hs He Hf.
    rewrite where_clauses_eq, params_eq, Ht, Hf, handle_time_range_params.
    unfold time_predicates; rewrite Hs, He; simpl.
    repeat split; reflexivity.
Qed.

Lemma count_videos_counts_video_rows_witness :
  build_query scenario_A = Ok ("SELECT COUNT(*) FROM videos ", [])
  /\ build_query scenario_B
     = Ok ("SELECT COUNT(*) FROM videos WHERE created_at >= :start_date"
           ++ " AND created_at <= :end_date AND creator_id = :creator_id",
           [("start_date", PyStr "2025-11-01"); ("end_date", PyStr "2025-11-05");
            ("creator_id", PyInt 123)]).
Proof.
  split.
  - apply (count_videos_counts_video_rows scenario_A); reflexivity.
  - apply (count_videos_counts_video_rows scenario_B eq_refl eq_refl);
      reflexivity.
Defined.

(** C6 (sum of deltas, zero by default).  A [sum] selects
    [COALESCE(SUM(c), 0)] over [video_snapshots] for one of its four delta
    columns [c], an aggregate that yields 0 when the predicates select no
    row; the intent for the views of 2025-11-28 sums [delta_views_count]
    between two inclusive bounds that both carry that day. *)
Theorem sum_is_coalesced_to_zero :
  (forall i : QueryIntent,
     intent i = "sum" ->
     exists col,
       In col ["delta_views_count"; "delta_likes_count";
               "delta_comments_count"; "delta_reports_count"]
       /\ In col (columns VideoSnapshot)
       /\ build_query i
          = Ok ("SELECT " ++ Sql.render_aggregate (Sql.SumOrZero col) ++ " FROM "
                ++ tablename VideoSnapshot ++ " " ++ where_clause (where_clauses i),
                params i)
       /\ Sql.sql_sum (Sql.column_values col []) = None
       /\ Sql.eval_aggregate (Sql.SumOrZero col) [] = 0%Z)
  /\ build_query scenario_C
     = Ok ("SELECT COALESCE(SUM(delta_views_count), 0) FROM video_snapshots "
           ++ "WHERE created_at >= :start_date AND created_at <= :end_date",
           [("start_date", PyStr "2025-11-28"); ("end_date", PyStr "2025-11-28")])
  /\ where_clauses scenario_C = map Sql.render [lower_bound; upper_bound].
Proof.
  split; [|split; reflexivity].
  intros i Hi.
  rewrite build_query_supported by auto.
  unfold select_from, get_default; rewrite Hi.
  change (String.eqb "sum" "count") with false; cbv iota.
  assert (Hc : forall col, Sql.render_aggregate (Sql.SumOrZero col)
                           = "COALESCE(SUM(" ++ col ++ "), 0)") by reflexivity.
  destruct (get (metric i) metric_columns) as [col|] eqn:E.
  - exists col.
    assert (Hin : In col ["delta_views_count"; "delta_likes_count";
                          "delta_comments_count"; "delta_reports_count"]).
    { apply get_In in E; simpl in E.
      destruct E as [E|[E|[E|[E|[]]]]]; injection E as _ <-; simpl; auto. }
    split; [exact Hin|]; split.
    + simpl in Hin |- *.
      destruct Hin as [<-|[<-|[<-|[<-|[]]]]]; auto 12.
    + split; [|split; reflexivity].
      rewrite Hc; simpl; rewrite !append_assoc; reflexivity.
  - exists "delta_views_count"; simpl; auto 12.
Qed.

Lemma sum_is_coalesced_to_zero_witness :
  exists col,
    In col ["delta_views_count"; "delta_likes_count";
            "delta_comments_count"; "delta_reports_count"]
    /\ In col (columns VideoSnapshot)
    /\ build_query scenario_C
       = Ok ("SELECT " ++ Sql.render_aggregate (Sql.SumOrZero col) ++ " FROM "
             ++ tablename VideoSnapshot ++ " "
             ++ where_clause (where_clauses scenario_C),
             params scenario_C)
    /\ Sql.sql_sum (Sql.column_values col []) = None
    /\ Sql.eval_aggregate (Sql.SumOrZero col) [] = 0%Z.
Proof.
  apply (proj1 sum_is_coalesced_to_zero scenario_C); reflexivity.
Defined.

(** C5 (inclusive bounds), where the code departs from it.  The intent
    asks for the videos from 2025-11-01 to 2025-11-05 and has a filter
    named [start_date].  The lower bound is compiled to
    [created_at >= :start_date], but the filter loop binds [start_date]
    again, to the filter's value: a row stamped exactly at the start of the
    range does not satisfy the compiled lower bound, while it does for the
    same intent without the filter. *)
Theorem filter_named_start_date_takes_the_lower_bound :
  build_query shadowed_bound
  = Ok ("SELECT COUNT(*) FROM videos WHERE created_at >= :start_date"
        ++ " AND created_at <= :end_date AND start_date = :start_date",
        [("start_date", PyStr "2030-01-01"); ("end_date", PyStr "2025-11-05")])
  /\ time_bound "start" (time_range shadowed_bound) = Some "2025-11-01"
  /\ Sql.render lower_bound = "created_at >= :start_date"
  /\ Sql.holds date_number [("created_at", date_number "2025-11-01")]
               (params_of (build_query shadowed_bound)) lower_bound
     = false
  /\ Sql.holds date_number [("created_at", date_number "2025-11-01")]
               (params_of
                  (build_query
                     {| intent := "count"; metric := "videos";
                        time_range := time_range shadowed_bound;
                        filters := []; group_by := None |}))
               lower_bound
     = true.
Proof.
  repeat split; reflexivity.
Qed.

(** C2 (closed vocabulary), refuted: the intent whose filter key is SQL
    text, whose metric is unknown and whose grouping is unknown compiles,
    and the key is in the template. *)
Lemma closed_vocabulary_counterexample :
  ~ In "1=1; DROP TABLE videos; --" (columns Video ++ columns VideoSnapshot)
  /\ ~ In (metric hostile_intent)
          ["videos"; "views"; "likes"; "comments"; "reports"]
  /\ build_query hostile_intent
     = Ok ("SELECT COUNT(DISTINCT video_id) FROM video_snapshots "
           ++ "WHERE 1=1; DROP TABLE videos; -- = :1=1; DROP TABLE videos; --",
           [("1=1; DROP TABLE videos; --", PyInt 0)]).
Proof.
  split; [|split]; [| |reflexivity]; simpl; intros H;
    repeat (destruct H as [H|H]; [discriminate|]); exact H.
Qed.

(** C2 as the code has it.  A [count] or a [sum] compiles whatever its
    filter keys, metric and grouping are.  Every filter key is written into
    the template, as [key = :key], and bound under its own name; a metric
    the builder does not know selects the fallback (distinct [video_id] for
    a count, [delta_views_count] for a sum); the grouping changes
    nothing. *)
Theorem every_name_compiles :
  forall i : QueryIntent,
    intent i = "count" \/ intent i = "sum" ->
    exists q ps,
      build_query i = Ok (q, ps)
      /\ (forall k, In k (keys (filters i)) ->
            In (k ++ " = :" ++ k) (where_clauses i)
            /\ occurs_in (k ++ " = :" ++ k) q
            /\ mem k ps = true)
      /\ (forall g, build_query (with_group_by i g) = Ok (q, ps))
      /\ q = select_from i ++ where_clause (where_clauses i)
      /\ (intent i = "count" -> metric i <> "videos" ->
          select_from i = "SELECT COUNT(DISTINCT video_id) FROM video_snapshots ")
      /\ (intent i = "sum" ->
          ~ In (metric i) ["views"; "likes"; "comments"; "reports"] ->
          select_from i
          = "SELECT COALESCE(SUM(delta_views_count), 0) FROM video_snapshots ").
Proof.
  intros i Hi.
  exists (select_from i ++ where_clause (where_clauses i)), (params i).
  split; [apply build_query_supported; exact Hi|].
  split; [|split; [|split; [reflexivity|split]]].
  - intros k Hk.
    assert (Hin : In (k ++ " = :" ++ k) (where_clauses i)).
    { rewrite where_clauses_eq; apply in_or_app; right.
      apply (in_map filter_clause); exact Hk. }
    split; [exact Hin|]; split.
    + apply occurs_in_append, occurs_in_where_clause; exact Hin.
    + rewrite params_eq; apply handle_filters_bound; right; exact Hk.
  - intros g; rewrite <- (build_query_supported i Hi).
    apply build_query_ext; reflexivity.
  - intros Hc Hm; unfold select_from; rewrite Hc.
    apply String.eqb_neq in Hm; rewrite Hm; reflexivity.
  - intros Hs Hm.
    change ["views"; "likes"; "comments"; "reports"] with (keys metric_columns) in Hm.
    apply get_None_not_in in Hm.
    unfold select_from, get_default; rewrite Hm, Hs; reflexivity.
Qed.

Lemma every_name_compiles_witness :
  exists q ps,
    build_query hostile_intent = Ok (q, ps)
    /\ (forall k, In k (keys (filters hostile_intent)) ->
          In (k ++ " = :" ++ k) (where_clauses hostile_intent)
          /\ occurs_in (k ++ " = :" ++ k) q
          /\ mem k ps = true)
    /\ (forall g, build_query (with_group_by hostile_intent g) = Ok (q, ps))
    /\ q = select_from hostile_intent ++ where_clause (where_clauses hostile_intent)
    /\ (intent hostile_intent = "count" -> metric hostile_intent <> "videos" ->
        select_from hostile_intent
        = "SELECT COUNT(DISTINCT video_id) FROM video_snapshots ")
    /\ (intent hostile_intent = "sum" ->
        ~ In (metric hostile_intent) ["views"; "likes"; "comments"; "reports"] ->
        select_from hostile_intent
        = "SELECT COALESCE(SUM(delta_views_count), 0) FROM video_snapshots ").
Proof.
  apply (every_name_compiles hostile_intent); left; reflexivity.
Defined.







(** C9 (validation at construction), refuted: the decoded answer with an
    unknown kind and metric, bounds that are no dates and are out of order,
    an unknown filter key and a non-numeric creator is accepted as it
    is. *)
Lemma construction_counterexample :
  Pydantic.parse_obj Pydantic.strict_str malformed_answer
  = Ok {| intent := "median"; metric := "bogus";
          time_range := Some [("start", "zzz"); ("end", "aaa")];
          filters := [("no_such_key", PyStr "x");
                      ("creator_id", PyStr "not a number")];
          group_by := None |}.
Proof. reflexivity. Qed.

(** C9 as the code has it.  Construction checks the declared field types
    and nothing else: with a string validator that returns strings
    unchanged, every intent, whatever its kind, metric, bounds, filter
    keys and filter values, is rebuilt unchanged from its decoded form;
    the construction is a function of the decoded object alone. *)
Theorem construction_checks_types_only :
  forall str_validator : pyval -> option string,
    (forall s, str_validator (PyStr s) = Some s) ->
    forall i : QueryIntent,
      Pydantic.parse_obj str_validator (Pydantic.dump i) = Ok i.
Proof.
  intros sv Hsv [a m tr fs g].
  assert (Hd : forall d : PyDict.t string,
             Pydantic.dict_str_validator sv
               (map (fun kv => (fst kv, PyStr (snd kv))) d) = Some d).
  { induction d as [|[k v] d IH]; simpl; [reflexivity|].
    rewrite Hsv, IH; reflexivity. }
  unfold Pydantic.parse_obj, Pydantic.required_str, Pydantic.optional_dict_str,
    Pydantic.dict_any, Pydantic.optional_str, Pydantic.dump; simpl.
  rewrite !Hsv.
  destruct tr as [d|]; [rewrite Hd|]; destruct g as [s|];
    rewrite ?Hsv; reflexivity.
Qed.

Lemma construction_checks_types_only_witness :
  Pydantic.parse_obj Pydantic.strict_str (Pydantic.dump scenario_E)
  = Ok scenario_E.
Proof.
  apply (construction_checks_types_only Pydantic.strict_str).
  intros s; reflexivity.
Defined.

(** ** Further properties of the builders *)

Module BuilderFacts.
Import PyDict PyDictFacts QueryBuilder QueryBuilderFacts.


Lemma keys_set_fresh {V : Type} k (v : V) d :
  get k d = None -> keys (set k v d) = (keys d ++ [k])%list.
Proof.
  induction d as [|[k0 v0] d IH]; simpl; [reflexivity|].
  destruct (String.eqb k k0); [discriminate|].
  intros H; simpl; rewrite IH by exact H; reflexivity.
Qed.



Lemma handle_filters_keys_fresh fs st :
  NoDup (keys (snd st) ++ keys fs) ->
  keys (snd (handle_filters fs st)) = (keys (snd st) ++ keys fs)%list.
Proof.
  unfold handle_filters; revert st.
  induction fs as [|[k v] fs IH]; intros st H; simpl in *.
  - rewrite app_nil_r; reflexivity.
  - assert (Hk : get k (snd st) = None).
    { apply get_None_not_in; intros Hin.
      apply NoDup_remove_2 in H; apply H, in_or_app; auto. }
    rewrite IH; simpl; rewrite keys_set_fresh by exact Hk.
    + rewrite <- app_assoc; reflexivity.
    + rewrite <- app_assoc; exact H.
Qed.

Lemma time_bindings_keys tr :
  keys (snd (handle_time_range tr ([], [])))
  = map Sql.placeholder (time_predicates tr).
Proof.
  destruct tr as [d|]; [|reflexivity].
  rewrite handle_time_range_params; unfold time_predicates.
  destruct (get "start" d), (get "end" d); reflexivity.
Qed.


Lemma placeholder_equality ks : map Sql.placeholder (map equality ks) = ks.
Proof. induction ks; simpl; congruence. Qed.

Lemma time_bindings_get k tr :
  k <> "start_date" -> k <> "end_date" ->
  get k (snd (handle_time_range tr ([], []))) = None.
Proof.
  intros H1 H2; apply get_None_not_in; rewrite time_bindings_keys.
  destruct tr as [d|]; simpl; [|tauto].
  destruct (get "start" d), (get "end" d); simpl; intuition congruence.
Qed.

(** What [handle_time_range] does is decided by the two lookups. *)
Lemma handle_time_range_bounds tr1 tr2 st :
  time_bound "start" tr1 = time_bound "start" tr2 ->
  time_bound "end" tr1 = time_bound "end" tr2 ->
  handle_time_range tr1 st = handle_time_range tr2 st.
Proof.
  assert (E : forall tr,
             handle_time_range tr st
             = let st1 := match time_bound "start" tr with
                          | Some v => ((fst st ++ ["created_at >= :start_date"])%list,
                                       set "start_date" (PyStr v) (snd st))
                          | None => st
                          end in
               match time_bound "end" tr with
               | Some v => ((fst st1 ++ ["created_at <= :end_date"])%list,
                            set "end_date" (PyStr v) (snd st1))
               | None => st1
               end).
  { intros [[|kv d]|]; reflexivity. }
  intros Hs He; rewrite (E tr1), (E tr2), Hs, He; reflexivity.
Qed.

Lemma append_nil_r (s : string) : s ++ "" = s.
Proof. induction s; simpl; congruence. Qed.

End BuilderFacts.

Module BuilderShape.
Import PyDict PyDictFacts QueryBuilder QueryBuilderFacts BuilderFacts.

Lemma where_clauses_predicates i :
  where_clauses i = map Sql.render (predicates i).
Proof.
  rewrite where_clauses_eq; unfold predicates.
  rewrite map_app, map_map; reflexivity.
Qed.

Lemma time_predicates_given tr :
  time_predicates tr
  = ((if given (time_bound "start" tr) then [lower_bound] else [])
     ++ (if given (time_bound "end" tr) then [upper_bound] else []))%list.
Proof.
  destruct tr as [d|]; [|reflexivity]; simpl.
  destruct (get "start" d), (get "end" d); reflexivity.
Qed.


Lemma append_same_l (s t : string) : s ++ t = s -> t = "".
Proof.
  induction s as [|c s IH]; simpl; [auto|].
  intros H; injection H as H; auto.
Qed.

Lemma collect_bounds i1 i2 :
  filters i1 = filters i2 ->
  time_bound "start" (time_range i1) = time_bound "start" (time_range i2) ->
  time_bound "end" (time_range i1) = time_bound "end" (time_range i2) ->
  collect i1 = collect i2.
Proof.
  intros Hf Hs He; unfold collect.
  rewrite Hf, (handle_time_range_bounds _ _ _ Hs He); reflexivity.
Qed.

Lemma build_query_collect i1 i2 :
  intent i1 = intent i2 -> metric i1 = metric i2 -> collect i1 = collect i2 ->
  build_query i1 = build_query i2.
Proof.
  intros Hi Hm Hc.
  unfold build_query, _build_count_query, _build_sum_query.
  rewrite Hi, Hm, Hc; reflexivity.
Qed.

End BuilderShape.

Import BuilderFacts BuilderShape.



(** X2.  When the filters are a dictionary with no key named [start_date]
    or [end_date], the parameter names are the placeholders of the
    predicates, one for one and in the same order, so the mapping has as
    many entries as the template has predicates. *)
Theorem params_in_placeholder_order :
  forall i : QueryIntent,
    wf (filters i) ->
    get "start_date" (filters i) = None ->
    get "end_date" (filters i) = None ->
    keys (params i) = map Sql.placeholder (predicates i)
    /\ List.length (params i) = List.length (where_clauses i).
Proof.
  intros i W F1 F2.
  assert (E : keys (params i) = map Sql.placeholder (predicates i)).
  { rewrite params_eq, handle_filters_keys_fresh; simpl.
    - unfold predicates.
      rewrite map_app, placeholder_equality, time_bindings_keys; reflexivity.
    - rewrite time_bindings_keys.
      apply get_None_not_in in F1, F2.
      destruct (time_range i) as [d|]; simpl; [|exact W].
      destruct (get "start" d), (get "end" d); simpl;
        repeat (constructor; [simpl; intuition congruence|]); exact W. }
  split; [exact E|].
  rewrite where_clauses_predicates, length_map.
  rewrite <- (length_map Sql.placeholder), <- E; unfold keys.
  rewrite length_map; reflexivity.
Qed.

Lemma params_in_placeholder_order_witness :
  keys (params scenario_B) = ["start_date"; "end_date"; "creator_id"]
  /\ List.length (params scenario_B) = List.length (where_clauses scenario_B).
Proof.
  apply (params_in_placeholder_order scenario_B); [|reflexivity|reflexivity].
  repeat constructor; simpl; tauto.
Defined.



(** X4.  A time range is read through its two keys only.  Two intents with
    the same kind, metric and filters whose time ranges hold the same
    values under ['start'] and under ['end'] compile alike: other keys of
    the time range, the order of its keys, and the difference between an
    absent time range and one with neither key, never show. *)
Theorem time_range_read_through_start_and_end :
  forall i1 i2 : QueryIntent,
    intent i1 = intent i2 -> metric i1 = metric i2 ->
    filters i1 = filters i2 ->
    time_bound "start" (time_range i1) = time_bound "start" (time_range i2) ->
    time_bound "end" (time_range i1) = time_bound "end" (time_range i2) ->
    build_query i1 = build_query i2.
Proof.
  intros i1 i2 Hi Hm Hf Hs He.
  apply build_query_collect; try assumption.
  apply collect_bounds; assumption.
Qed.

Lemma time_range_read_through_start_and_end_witness :
  build_query
    {| intent := "sum"; metric := "likes";
       time_range := Some [("timezone", "UTC"); ("end", "2025-11-05")];
       filters := []; group_by := None |}
  = build_query
      {| intent := "sum"; metric := "likes";
         time_range := Some [("end", "2025-11-05")];
         filters := []; group_by := None |}
  /\ build_query
       {| intent := "sum"; metric := "likes"; time_range := Some [];
          filters := []; group_by := None |}
     = build_query
         {| intent := "sum"; metric := "likes"; time_range := None;
            filters := []; group_by := None |}.
Proof.
  split; apply time_range_read_through_start_and_end; reflexivity.
Defined.

(** X5.  No value reaches the template.  Two intents with the same kind and
    metric, the same filter keys in the same order, and the same bounds
    present in their time ranges compile to the same template, or fail
    alike, whatever their dates and filter values are. *)
Theorem template_depends_on_names_only :
  forall i1 i2 : QueryIntent,
    intent i1 = intent i2 -> metric i1 = metric i2 ->
    keys (filters i1) = keys (filters i2) ->
    given (time_bound "start" (time_range i1))
    = given (time_bound "start" (time_range i2)) ->
    given (time_bound "end" (time_range i1))
    = given (time_bound "end" (time_range i2)) ->
    template_of (build_query i1) = template_of (build_query i2).
Proof.
  intros i1 i2 Hi Hm Hk Hs He.
  destruct (intent_cases i1) as [H|[H1 H2]].
  - rewrite (build_query_supported i1 H).
    rewrite (build_query_supported i2) by (rewrite <- Hi; exact H).
    simpl; rewrite !where_clauses_eq, !time_predicates_given, Hk, Hs, He.
    unfold select_from; rewrite Hi, Hm; reflexivity.
  - rewrite (build_query_unsupported i1 H1 H2).
    rewrite (build_query_unsupported i2) by (rewrite <- Hi; assumption).
    simpl; rewrite Hi; reflexivity.
Qed.

Lemma template_depends_on_names_only_witness :
  template_of (build_query scenario_B)
  = template_of
      (build_query
         {| intent := "count"; metric := "videos";
            time_range := Some [("end", "x' OR '1'='1"); ("start", "; --")];
            filters := [("creator_id", PyStr "0; DROP TABLE videos")];
            group_by := None |}).
Proof.
  apply template_depends_on_names_only; reflexivity.
Defined.

(** X6.  A [count] or a [sum] is unfiltered exactly when the intent has no
    bound and no filter: then, and only then, the template is the bare
    selection (ending in the blank after the table name) and the parameter
    mapping is empty. *)
Theorem unfiltered_iff_no_predicate :
  forall i : QueryIntent,
    intent i = "count" \/ intent i = "sum" ->
    (build_query i = Ok (select_from i, [])
     <-> time_bound "start" (time_range i) = None
         /\ time_bound "end" (time_range i) = None
         /\ filters i = []).
Proof.
  intros i Hi; rewrite (build_query_supported i Hi); split.
  - intros H; injection H as Hq Hp.
    apply append_same_l in Hq.
    assert (Hw : where_clauses i = []).
    { destruct (where_clauses i); [reflexivity | discriminate Hq]. }
    rewrite where_clauses_eq, time_predicates_given in Hw.
    apply app_eq_nil in Hw; destruct Hw as [Ht Hf].
    destruct (time_bound "start" (time_range i)); [discriminate|].
    destruct (time_bound "end" (time_range i)); [discriminate|].
    destruct (filters i); [auto | discriminate].
  - intros (Hs & He & Hf).
    rewrite where_clauses_eq, params_eq, time_predicates_given, Hs, He, Hf.
    rewrite (handle_time_range_bounds (time_range i) None)
      by (simpl; assumption).
    simpl; rewrite append_nil_r; reflexivity.
Qed.

Lemma unfiltered_iff_no_predicate_witness :
  build_query scenario_A = Ok (select_from scenario_A, [])
  <-> time_bound "start" (time_range scenario_A) = None
      /\ time_bound "end" (time_range scenario_A) = None
      /\ filters scenario_A = [].
Proof.
  apply (unfiltered_iff_no_predicate scenario_A); left; reflexivity.
Defined.

(** X7.  A [sum] of views, likes, comments or reports sums the delta
    column of that metric, [delta_<metric>_count], over [video_snapshots]. *)
Theorem sum_column_of_known_metric :
  forall i : QueryIntent,
    intent i = "sum" ->
    In (metric i) ["views"; "likes"; "comments"; "reports"] ->
    build_query i
    = Ok ("SELECT COALESCE(SUM(delta_" ++ metric i
          ++ "_count), 0) FROM video_snapshots "
          ++ where_clause (where_clauses i), params i)
    /\ In ("delta_" ++ metric i ++ "_count") (columns VideoSnapshot).
Proof.
  intros i Hi Hm.
  rewrite build_query_supported by auto.
  unfold select_from, get_default; rewrite Hi.
  simpl in Hm; destruct Hm as [<-|[<-|[<-|[<-|[]]]]]; simpl;
    split; auto 15.
Qed.

Lemma sum_column_of_known_metric_witness :
  build_query {| intent := "sum"; metric := "likes"; time_range := None;
                 filters := []; group_by := None |}
  = Ok ("SELECT COALESCE(SUM(delta_likes_count), 0) FROM video_snapshots ", []).
Proof.
  apply (sum_column_of_known_metric
           {| intent := "sum"; metric := "likes"; time_range := None;
              filters := []; group_by := None |});
    [reflexivity | simpl; auto].
Defined.

(** X8.  A [count] only asks whether the metric is [videos]: any two other
    metrics give the same query over [video_snapshots].  The parameter
    mapping never depends on the metric. *)
Theorem count_ignores_other_metrics :
  forall (i : QueryIntent) (m1 m2 : string),
    (intent i = "count" -> m1 <> "videos" -> m2 <> "videos" ->
     build_query (with_metric i m1) = build_query (with_metric i m2))
    /\ params_of (build_query (with_metric i m1))
       = params_of (build_query (with_metric i m2)).
Proof.
  intros i m1 m2; split.
  - intros Hi H1 H2.
    rewrite !build_query_supported by (left; exact Hi).
    unfold select_from; simpl; rewrite Hi.
    apply String.eqb_neq in H1, H2; rewrite H1, H2; reflexivity.
  - destruct (intent_cases i) as [H|[H1 H2]].
    + rewrite !build_query_supported by exact H; reflexivity.
    + rewrite !build_query_unsupported by assumption; reflexivity.
Qed.

Lemma count_ignores_other_metrics_witness :
  build_query (with_metric scenario_D "views")
  = build_query (with_metric scenario_D "likes").
Proof.
  apply (proj1 (count_ignores_other_metrics scenario_D "views" "likes"));
    [reflexivity | discriminate | discriminate].
Defined.

(** ** The start-up check of [main.py] *)

Module MainFacts.
Import PyDict Main.

Lemma unset_iff environ var :
  unset environ var = true
  <-> get var environ = None \/ get var environ = Some "".
Proof.
  unfold unset; destruct (get var environ) as [value|]; [|tauto].
  rewrite String.eqb_eq; split.
  - intros ->; auto.
  - intros [H|H]; [discriminate | congruence].
Qed.

Lemma complete_iff environ :
  missing_vars environ = []
  <-> (forall var, In var required_vars ->
         exists value, get var environ = Some value /\ value <> "").
Proof.
  unfold missing_vars; split.
  - intros H var Hin.
    destruct (unset environ var) eqn:U.
    + assert (Hm : In var (filter (unset environ) required_vars))
        by (apply filter_In; auto).
      rewrite H in Hm; destruct Hm.
    + unfold unset in U; destruct (get var environ) as [value|];
        [|discriminate].
      exists value; split; [reflexivity|]; apply String.eqb_neq; exact U.
  - intros H.
    destruct (filter (unset environ) required_vars) as [|var rest] eqn:F;
      [reflexivity|].
    assert (Hm : In var (filter (unset environ) required_vars))
      by (rewrite F; left; reflexivity).
    apply filter_In in Hm; destruct Hm as [Hin U].
    destruct (H var Hin) as (value & G & Hne).
    apply unset_iff in U; destruct U as [U|U]; congruence.
Qed.

End MainFacts.

Import Main MainFacts.

(** X9.  [main] starts the bot exactly when each of the seven required
    variables is set to a non-empty value and [init_db] returns. *)
Theorem bot_starts_iff_environment_complete :
  forall (environ : PyDict.t string) (init_db start_bot : option string),
    In StartBot (main environ init_db start_bot)
    <-> (forall var, In var required_vars ->
           exists value, get var environ = Some value /\ value <> "")
        /\ init_db = None.
Proof.
  intros environ init_db start_bot.
  rewrite <- complete_iff; unfold main.
  destruct (missing_vars environ) as [|var rest].
  - destruct init_db as [e|].
    + simpl; split.
      * intros H; repeat (destruct H as [H|H]; [discriminate|]); destruct H.
      * intros [_ H]; discriminate.
    + split; [intros _; split; reflexivity | intros _].
      destruct start_bot; simpl; auto 10.
  - simpl; split.
    + intros H; repeat (destruct H as [H|H]; [discriminate|]); destruct H.
    + intros [H _]; discriminate.
Qed.

(** X10.  When a required variable is unset or empty, [main] logs the names
    of those variables, in the order of the list of required variables,
    and returns: the database is not initialised, the bot is not started
    and nothing more is logged, whatever the collaborators would do. *)
Theorem missing_variables_are_reported :
  forall (environ : PyDict.t string) (init_db start_bot : option string),
    missing_vars environ <> [] ->
    main environ init_db start_bot
    = [LoadDotenv;
       LogError ("Missing required environment variables: "
                 ++ String.concat ", " (missing_vars environ));
       LogInfo "Please copy .env.example to .env and fill in the required values."]
    /\ (forall var,
          In var (missing_vars environ)
          <-> In var required_vars
              /\ (get var environ = None \/ get var environ = Some ""))
    /\ missing_vars environ = filter (unset environ) required_vars.
Proof.
  intros environ init_db start_bot H; split; [|split; [|reflexivity]].
  - unfold main; destruct (missing_vars environ); [contradiction|reflexivity].
  - intros var; unfold missing_vars; rewrite filter_In, unset_iff; tauto.
Qed.

Lemma missing_variables_are_reported_witness :
  main [("TELEGRAM_BOT_TOKEN", "t"); ("OPENAI_API_KEY", "");
        ("POSTGRES_USER", "u"); ("POSTGRES_PASSWORD", "p");
        ("POSTGRES_DB", "d"); ("POSTGRES_HOST", "h")] None None
  = [LoadDotenv;
     LogError "Missing required environment variables: OPENAI_API_KEY, POSTGRES_PORT";
     LogInfo "Please copy .env.example to .env and fill in the required values."].
Proof.
  apply (missing_variables_are_reported
           [("TELEGRAM_BOT_TOKEN", "t"); ("OPENAI_API_KEY", "");
            ("POSTGRES_USER", "u"); ("POSTGRES_PASSWORD", "p");
            ("POSTGRES_DB", "d"); ("POSTGRES_HOST", "h")] None None).
  discriminate.
Defined.

(** X11.  Once the check of the environment has passed, the run ends with
    the line [Bot has been stopped.], also when [init_db] or the bot
    raises; a run that stops at the check does not log it. *)
Theorem stopped_is_logged_iff_check_passed :
  forall (environ : PyDict.t string) (init_db start_bot : option string),
    List.last (main environ init_db start_bot) LoadDotenv
    = LogInfo "Bot has been stopped."
    <-> missing_vars environ = [].
Proof.
  intros environ init_db start_bot; unfold main.
  destruct (missing_vars environ) as [|var rest].
  - split; [reflexivity|intros _].
    destruct init_db, start_bot; reflexivity.
  - split; intros H; discriminate H.
Qed.

(** ** The message handler of [app/bot.py] *)

(** X12.  The handler calls [db.execute] only when the typing indicator
    went through, the chain returned an intent, that intent compiled and a
    session came back; it then calls it once, with the very template and
    parameter mapping that [build_query] returned for the intent.  When any
    of these steps raises, nothing is sent to the store. *)
Theorem store_gets_exactly_the_compiled_query :
  forall (chain_run : string -> QueryIntent + string)
         (typing get_db : option string)
         (execute : string -> PyDict.t pyval -> pyval + string) (text : string),
    Bot.executed (Bot.handle_message chain_run typing get_db execute text)
    = match typing, chain_run text, get_db with
      | None, inl i, None =>
          match build_query i with
          | Ok compiled => [compiled]
          | Err _ => []
          end
      | _, _, _ => []
      end.
Proof.
  intros chain_run typing get_db execute text.
  unfold Bot.handle_message, Bot.parse_query.
  destruct typing as [e|]; [reflexivity|].
  destruct (chain_run text) as [i|e]; [|destruct get_db; reflexivity]; simpl.
  destruct (build_query i) as [[q ps]|e]; [|destruct get_db; reflexivity]; simpl.
  destruct get_db as [e|]; [reflexivity|]; simpl.
  destruct (execute q ps); reflexivity.
Qed.

(** X13.  The handler ends with one reply and sends no other.  The reply is
    the result, as [str] prints it after the result label, when the typing
    indicator, the chain, the compilation, the session and the store all
    went through; in every other case it is the same error text, whichever
    step failed. *)
Theorem handler_replies_once :
  forall (chain_run : string -> QueryIntent + string)
         (typing get_db : option string)
         (execute : string -> PyDict.t pyval -> pyval + string) (text : string),
    let response :=
      match typing, chain_run text with
      | None, inl i =>
          match build_query i with
          | Ok (query, ps) =>
              match get_db with
              | Some _ => Bot.error_response
              | None =>
                  match execute query ps with
                  | inl r => "📊 Результат: " ++ py_str r
                  | inr _ => Bot.error_response
                  end
              end
          | Err _ => Bot.error_response
          end
      | _, _ => Bot.error_response
      end in
    Bot.replies (Bot.handle_message chain_run typing get_db execute text)
    = [response]
    /\ exists evs,
         Bot.handle_message chain_run typing get_db execute text
         = (evs ++ [Bot.Reply response])%list.
Proof.
  intros chain_run typing get_db execute text.
  unfold Bot.handle_message, Bot.parse_query, Bot.rescue.
  destruct typing as [e|]; simpl.
  { split; [reflexivity|]; eexists [_; _]; reflexivity. }
  destruct (chain_run text) as [i|e]; simpl.
  2:{ split; [reflexivity|]; eexists [_; _; _]; reflexivity. }
  destruct (build_query i) as [[q ps]|e]; simpl.
  2:{ split; [reflexivity|]; eexists [_; _; _]; reflexivity. }
  destruct get_db as [e|]; simpl.
  { split; [reflexivity|]; eexists [_; _; _; _; _]; reflexivity. }
  destruct (execute q ps); simpl.
  - split; [reflexivity|]; eexists [_; _; _; _; _]; reflexivity.
  - split; [reflexivity|]; eexists [_; _; _; _; _; _]; reflexivity.
Qed.

(** X14.  An intent whose kind is neither [count] nor [sum] never reaches
    the store: the handler logs the builder's [ValueError], with the kind
    in its message, and answers with the error text. *)
Theorem unsupported_kind_is_answered_without_query :
  forall (chain_run : string -> QueryIntent + string) (get_db : option string)
         (execute : string -> PyDict.t pyval -> pyval + string)
         (text : string) (i : QueryIntent),
    chain_run text = inl i ->
    intent i <> "count" -> intent i <> "sum" ->
    Bot.handle_message chain_run None get_db execute text
    = [Bot.Typing;
       Bot.LogInfo "Parsed intent: " (Bot.AnIntent i);
       Bot.LogError "Error processing message: "
         (Bot.Raised (ValueError ("Unsupported query type: " ++ intent i)));
       Bot.Reply Bot.error_response].
Proof.
  intros chain_run get_db execute text i Hc H1 H2.
  unfold Bot.handle_message, Bot.parse_query; rewrite Hc; simpl.
  rewrite build_query_unsupported by assumption; reflexivity.
Qed.

Lemma unsupported_kind_is_answered_without_query_witness :
  Bot.executed
    (Bot.handle_message (fun _ => inl scenario_E) None None
                        (fun _ _ => inl (PyInt 0)) "median views?")
  = []
  /\ Bot.replies
       (Bot.handle_message (fun _ => inl scenario_E) None None
                           (fun _ _ => inl (PyInt 0)) "median views?")
     = [Bot.error_response].
Proof.
  rewrite (unsupported_kind_is_answered_without_query
             (fun _ => inl scenario_E) None (fun _ _ => inl (PyInt 0))
             "median views?" scenario_E eq_refl);
    [split; reflexivity | discriminate | discriminate].
Defined.

(** ** [insert_video] of [scripts/load_data.py] *)

Module LoadDataFacts.
Import LoadData.

Section Loader.
Variable datetime : Type.
Variable strptime : string -> string -> option datetime.

Local Abbreviation init := (VideoSnapshot_init datetime strptime).

Lemma VideoSnapshot_init_video_id video snapshot_data s :
  init video snapshot_data = Returned s ->
  SnapshotRow.video_id s = VideoRow.id video.
Proof.
  unfold VideoSnapshot_init, and_then; intros H.
  repeat match type of H with
         | match ?c with _ => _ end = _ => destruct c; try discriminate H
         end.
  injection H as <-; reflexivity.
Qed.

Lemma built_video_id video items :
  Forall (fun s => SnapshotRow.video_id s = VideoRow.id video)
         (built (init video) items).
Proof.
  induction items as [|x items IH]; simpl; [constructor|].
  destruct (init video x) eqn:E; constructor; [|exact IH].
  apply (VideoSnapshot_init_video_id _ _ _ E).
Qed.

(** The loop leaves in the session the snapshots built before the first
    failure, and returns exactly when every item was built. *)
Lemma insert_snapshots_built video items db :
  fst (insert_snapshots datetime strptime video items db)
  = (db ++ map (ASnapshot datetime) (built (init video) items))%list
  /\ (snd (insert_snapshots datetime strptime video items db) = Returned tt
      <-> Forall2 (fun x s => init video x = Returned s)
                  items (built (init video) items)).
Proof.
  revert db; induction items as [|x items IH]; intros db; simpl.
  - rewrite app_nil_r; repeat split; constructor.
  - destruct (init video x) as [s|e] eqn:E; simpl.
    + destruct (IH (db ++ [ASnapshot datetime s])%list) as [H1 H2].
      rewrite H1, <- app_assoc; split; [reflexivity|].
      rewrite H2; split.
      * intros H; constructor; assumption.
      * intros H; inversion H; assumption.
    + rewrite app_nil_r; split; [reflexivity|].
      split; [discriminate | intros H; inversion H].
Qed.

Lemma Forall2_built video items snaps :
  Forall2 (fun x s => init video x = Returned s) items snaps ->
  built (init video) items = snaps.
Proof.
  induction 1 as [|x s items snaps E _ IH]; simpl; [reflexivity|].
  rewrite E, IH; reflexivity.
Qed.

(** When the loop raises, it raises on the first item that cannot be
    built, and the snapshots of the items before it are in the session. *)
Lemma insert_snapshots_threw video items db db' e :
  insert_snapshots datetime strptime video items db = (db', Threw e) ->
  exists before failing after snapshots,
    items = (before ++ failing :: after)%list
    /\ Forall2 (fun x s => init video x = Returned s) before snapshots
    /\ init video failing = Threw e
    /\ db' = (db ++ map (ASnapshot datetime) snapshots)%list.
Proof.
  revert db; induction items as [|x items IH]; intros db H; simpl in H.
  - discriminate H.
  - destruct (init video x) as [s|e0] eqn:E.
    + destruct (IH _ H) as (before & failing & after & snapshots
                            & Hi & HF & He & Hd).
      exists (x :: before), failing, after, (s :: snapshots).
      split; [rewrite Hi; reflexivity|].
      split; [constructor; assumption|].
      split; [exact He|].
      rewrite Hd, <- app_assoc; reflexivity.
    + injection H as <- <-.
      exists [], x, items, [].
      split; [reflexivity|]; split; [constructor|]; split; [exact E|].
      rewrite app_nil_r; reflexivity.
Qed.

End Loader.
End LoadDataFacts.

(** X15.  When [insert_video] returns, it returns the video built from the
    record, and the session has grown by that video followed by one
    snapshot for each element of the record's ['snapshots'] (none when the
    key is absent), in their order; every one of these snapshots carries
    the id of the video as its [video_id], whatever the element says. *)
Theorem insert_video_adds_video_then_snapshots :
  forall (datetime : Type) (strptime : string -> string -> option datetime)
         (db db' : list (LoadData.object datetime)) (video_data : LoadData.json)
         (video : LoadData.VideoRow.t datetime),
    LoadData.insert_video datetime strptime db video_data
    = (db', LoadData.Returned video) ->
    LoadData.Video_init datetime strptime video_data = LoadData.Returned video
    /\ LoadData.subscript video_data "id"
       = LoadData.Returned (LoadData.VideoRow.id video)
    /\ exists items snapshots,
         LoadData.and_then
           (LoadData.method_get video_data "snapshots" (LoadData.JList []))
           LoadData.iterate
         = LoadData.Returned items
         /\ Forall2 (fun x s =>
                       LoadData.VideoSnapshot_init datetime strptime video x
                       = LoadData.Returned s) items snapshots
         /\ Forall (fun s => LoadData.SnapshotRow.video_id s
                             = LoadData.VideoRow.id video) snapshots
         /\ db' = (db ++ LoadData.AVideo datetime video
                      :: map (LoadData.ASnapshot datetime) snapshots)%list
         /\ List.length db' = List.length db + 1 + List.length items.
Proof.
  intros datetime strptime db db' video_data video H.
  unfold LoadData.insert_video in H.
  destruct (LoadData.Video_init datetime strptime video_data) as [v|e] eqn:Ev;
    [|discriminate H].
  destruct (LoadData.and_then _ LoadData.iterate) as [items|e] eqn:Ei;
    [|discriminate H].
  destruct (LoadDataFacts.insert_snapshots_built datetime strptime v items
              (db ++ [LoadData.AVideo datetime v])%list) as [H1 H2].
  destruct (LoadData.insert_snapshots datetime strptime v items _)
    as [db1 [[]|e]]; [|discriminate H].
  injection H as <- <-; simpl in H1, H2.
  assert (HF := proj1 H2 eq_refl).
  split; [reflexivity|]; split.
  - unfold LoadData.Video_init, LoadData.and_then in Ev.
    destruct (LoadData.subscript video_data "id") as [x|]; [|discriminate Ev].
    repeat match type of Ev with
           | match ?c with _ => _ end = _ => destruct c; try discriminate Ev
           end.
    injection Ev as <-; reflexivity.
  - exists items, (LoadData.built (LoadData.VideoSnapshot_init datetime strptime v) items).
    split; [reflexivity|]; split; [exact HF|]; split;
      [apply LoadDataFacts.built_video_id|].
    rewrite H1, <- app_assoc; split; [reflexivity|].
    rewrite !length_app, length_map; simpl.
    rewrite <- (Forall2_length HF); lia.
Qed.

Lemma insert_video_adds_video_then_snapshots_witness :
  exists items snapshots,
    LoadData.iterate (LoadData.JList [sample_snapshot]) = LoadData.Returned items
    /\ Forall2 (fun x s =>
                  LoadData.VideoSnapshot_init string plain_strptime
                                              sample_video_row x
                  = LoadData.Returned s) items snapshots
    /\ Forall (fun s => LoadData.SnapshotRow.video_id s = LoadData.JInt 7)
              snapshots
    /\ fst (LoadData.insert_video string plain_strptime []
                                  (sample_video [sample_snapshot]))
       = LoadData.AVideo string sample_video_row
         :: map (LoadData.ASnapshot string) snapshots.
Proof.
  destruct (insert_video_adds_video_then_snapshots
              string plain_strptime []
              (fst (LoadData.insert_video string plain_strptime []
                                          (sample_video [sample_snapshot])))
              (sample_video [sample_snapshot]) sample_video_row eq_refl)
    as (_ & _ & items & snapshots & H1 & H2 & H3 & H4 & _).
  exists items, snapshots; repeat split; assumption.
Defined.

(** X16.  [insert_video] is not undone when it raises.  If the exception
    comes from building the video, the session is untouched.  If the
    ['snapshots'] cannot be iterated, the video alone has been added.  If a
    snapshot cannot be built, the exception is that of the first element
    that fails, and the session has grown by the video followed by the
    snapshots built from the elements before that one, one for one and in
    their order; the elements after it are not read. *)
Theorem insert_video_is_not_atomic :
  forall (datetime : Type) (strptime : string -> string -> option datetime)
         (db : list (LoadData.object datetime)) (video_data : LoadData.json)
         (e : LoadData.raised),
    snd (LoadData.insert_video datetime strptime db video_data)
    = LoadData.Threw e ->
    (LoadData.Video_init datetime strptime video_data = LoadData.Threw e
     /\ fst (LoadData.insert_video datetime strptime db video_data) = db)
    \/ (exists video,
          LoadData.Video_init datetime strptime video_data
          = LoadData.Returned video
          /\ ((LoadData.and_then
                 (LoadData.method_get video_data "snapshots" (LoadData.JList []))
                 LoadData.iterate
               = LoadData.Threw e
               /\ fst (LoadData.insert_video datetime strptime db video_data)
                  = (db ++ [LoadData.AVideo datetime video])%list)
              \/ (exists before failing after snapshots,
                    LoadData.and_then
                      (LoadData.method_get video_data "snapshots"
                                           (LoadData.JList []))
                      LoadData.iterate
                    = LoadData.Returned (before ++ failing :: after)%list
                    /\ Forall2 (fun x s =>
                                  LoadData.VideoSnapshot_init datetime strptime
                                                              video x
                                  = LoadData.Returned s) before snapshots
                    /\ LoadData.VideoSnapshot_init datetime strptime video failing
                       = LoadData.Threw e
                    /\ fst (LoadData.insert_video datetime strptime db video_data)
                       = (db ++ LoadData.AVideo datetime video
                             :: map (LoadData.ASnapshot datetime) snapshots)%list))).
Proof.
  intros datetime strptime db video_data e H.
  unfold LoadData.insert_video in *.
  destruct (LoadData.Video_init datetime strptime video_data) as [v|e0] eqn:Ev.
  2:{ left; simpl in *; split; [exact H | reflexivity]. }
  right; exists v; split; [reflexivity|].
  destruct (LoadData.and_then _ LoadData.iterate) as [items|e1] eqn:Ei.
  2:{ left; simpl in *; injection H as ->; split; reflexivity. }
  right.
  destruct (LoadData.insert_snapshots datetime strptime v items _)
    as [db1 [[]|e2]] eqn:Es; simpl in H; [discriminate H|].
  injection H as ->.
  destruct (LoadDataFacts.insert_snapshots_threw _ _ _ _ _ _ _ Es)
    as (before & failing & after & snapshots & Hi & HF & He & Hd).
  exists before, failing, after, snapshots.
  split; [rewrite Hi; reflexivity|].
  split; [exact HF|]; split; [exact He|].
  simpl; rewrite Hd, <- app_assoc; reflexivity.
Qed.

Lemma insert_video_is_not_atomic_witness :
  snd (LoadData.insert_video
         string plain_strptime []
         (sample_video [sample_snapshot;
                        LoadData.JDict [("views_count", LoadData.JInt 5)]]))
  = LoadData.Threw (LoadData.KeyError "id")
  /\ exists snapshots,
       fst (LoadData.insert_video
              string plain_strptime []
              (sample_video [sample_snapshot;
                             LoadData.JDict [("views_count", LoadData.JInt 5)]]))
       = LoadData.AVideo string sample_video_row
         :: map (LoadData.ASnapshot string) snapshots
       /\ List.length snapshots = 1.
Proof.
  split; [reflexivity|].
  destruct (insert_video_is_not_atomic
              string plain_strptime []
              (sample_video [sample_snapshot;
                             LoadData.JDict [("views_count", LoadData.JInt 5)]])
              (LoadData.KeyError "id") eq_refl)
    as [[H _]|(video & Hv & [[H _]|(before & failing & after & snapshots
                                    & _ & _ & _ & Hf)])];
    [discriminate H | discriminate H |].
  injection Hv as <-.
  exists snapshots; split; [exact Hf|].
  simpl in Hf; injection Hf as Hf.
  rewrite <- (length_map (LoadData.ASnapshot string)), <- Hf; reflexivity.
Defined.

(** ** The fields of [QueryIntent] *)

(** X17.  [intent] and [metric] are required, the other three fields have
    defaults.  A decoded object without ['intent'] (or without ['metric'])
    is refused, and the refusal names the field; an object that has the
    two as strings and none of the other three keys gives the intent with
    no time range, no filter and no grouping. *)
Theorem intent_and_metric_are_required :
  forall (str_validator : pyval -> option string) (o : PyDict.t Pydantic.raw),
    (get "intent" o = None ->
     exists fields,
       Pydantic.parse_obj str_validator o = Err (ValidationError fields)
       /\ In "intent" fields)
    /\ (get "metric" o = None ->
        exists fields,
          Pydantic.parse_obj str_validator o = Err (ValidationError fields)
          /\ In "metric" fields)
    /\ (forall a m,
          (forall s, str_validator (PyStr s) = Some s) ->
          get "intent" o = Some (Pydantic.Scalar (PyStr a)) ->
          get "metric" o = Some (Pydantic.Scalar (PyStr m)) ->
          get "time_range" o = None -> get "filters" o = None ->
          get "group_by" o = None ->
          Pydantic.parse_obj str_validator o
          = Ok {| intent := a; metric := m; time_range := None;
                  filters := []; group_by := None |}).
Proof.
  intros sv o; unfold Pydantic.parse_obj, Pydantic.required_str.
  split; [|split].
  - intros ->; eexists; split; [reflexivity|]; left; reflexivity.
  - intros ->.
    destruct (match get "intent" o with
              | Some (Pydantic.Scalar v) => sv v
              | _ => None
              end); eexists; (split; [reflexivity|]); simpl; auto.
  - intros a m Hsv -> -> Ht Hf Hg.
    unfold Pydantic.optional_dict_str, Pydantic.dict_any, Pydantic.optional_str.
    rewrite Ht, Hf, Hg, !Hsv; reflexivity.
Qed.

Lemma intent_and_metric_are_required_witness :
  Pydantic.parse_obj Pydantic.strict_str
    [("intent", Pydantic.Scalar (PyStr "count"));
     ("metric", Pydantic.Scalar (PyStr "videos"))]
  = Ok scenario_A
  /\ exists fields,
       Pydantic.parse_obj Pydantic.strict_str
         [("metric", Pydantic.Scalar (PyStr "videos"))]
       = Err (ValidationError fields)
       /\ In "intent" fields.
Proof.
  split.
  - apply (intent_and_metric_are_required Pydantic.strict_str
             [("intent", Pydantic.Scalar (PyStr "count"));
              ("metric", Pydantic.Scalar (PyStr "videos"))]);
      try reflexivity.
  - apply (intent_and_metric_are_required Pydantic.strict_str
             [("metric", Pydantic.Scalar (PyStr "videos"))]); reflexivity.
Defined.

(** ** Inclusive bounds *)


